(** * USDA nutrition visualizer: the nutrient query and guideline engine

    A shallow embedding of [src/nutritional_guidelines.py] and
    [src/nutrient_processor.py].

    Numbers are IEEE binary64 values ([float], the kernel's primitive
    floats), which is what Python's [float] and polars' [Float64] are.
    The integer literals of the guideline table ([rda_male=900]) are
    small enough to be represented exactly, and Python's mixed
    int/float arithmetic agrees with binary64 arithmetic on them.

    Strings are byte strings; [lower] folds the ASCII letters only, so
    the model covers ASCII text. *)

From Stdlib Require Import List String Ascii Bool Arith ZArith Lia Floats.
From Stdlib Require Import Permutation.
Import ListNotations.

Set Warnings "-inexact-float".

Local Open Scope string_scope.
Local Open Scope list_scope.

(** ** Python and polars primitives *)

Module Py.

(** *** Strings *)

Definition is_upper (c : ascii) : bool :=
  let n := nat_of_ascii c in (65 <=? n)%nat && (n <=? 90)%nat.

Definition lower_ascii (c : ascii) : ascii :=
  if is_upper c then ascii_of_nat (nat_of_ascii c + 32) else c.

(** [str.lower()] and polars' [str.to_lowercase()]. *)
Fixpoint lower (s : string) : string :=
  match s with
  | EmptyString => EmptyString
  | String c rest => String (lower_ascii c) (lower rest)
  end.

(** [needle in hay] on Python strings: literal substring containment. *)
Fixpoint contains (needle hay : string) : bool :=
  String.prefix needle hay
  || match hay with
     | EmptyString => false
     | String _ rest => contains needle rest
     end.

(** [s.replace("_", "")]. *)
Fixpoint remove_underscores (s : string) : string :=
  match s with
  | EmptyString => EmptyString
  | String c rest =>
      if Ascii.eqb c "_" then remove_underscores rest
      else String c (remove_underscores rest)
  end.

(** [s.split("_")[0]]: the text before the first underscore. *)
Fixpoint first_segment (s : string) : string :=
  match s with
  | EmptyString => EmptyString
  | String c rest =>
      if Ascii.eqb c "_" then EmptyString else String c (first_segment rest)
  end.

(** The ASCII characters for which [str.isspace()] holds. *)
Definition is_space (c : ascii) : bool :=
  let n := nat_of_ascii c in
  (n =? 32)%nat || ((9 <=? n)%nat && (n <=? 13)%nat)
  || ((28 <=? n)%nat && (n <=? 31)%nat).

Fixpoint lstrip (s : string) : string :=
  match s with
  | EmptyString => EmptyString
  | String c rest => if is_space c then lstrip rest else s
  end.

Fixpoint rstrip (s : string) : string :=
  match s with
  | EmptyString => EmptyString
  | String c rest =>
      match rstrip rest with
      | EmptyString => if is_space c then EmptyString else String c EmptyString
      | rest' => String c rest'
      end
  end.

(** [s.strip()]. *)
Definition strip (s : string) : string := rstrip (lstrip s).

Fixpoint has_close (s : string) : bool :=
  match s with
  | EmptyString => false
  | String c rest => Ascii.eqb c ")" || has_close rest
  end.

(** [re.sub(r'\([^)]*\)', '', s)], scanning left to right: an opening
    parenthesis that has a closing one somewhere after it starts a
    match that runs to the first closing parenthesis. *)
Fixpoint sub_parens_from (skipping : bool) (s : string) : string :=
  match s with
  | EmptyString => EmptyString
  | String c rest =>
      if skipping then
        sub_parens_from (negb (Ascii.eqb c ")")) rest
      else if Ascii.eqb c "(" && has_close rest then
        sub_parens_from true rest
      else String c (sub_parens_from false rest)
  end.

Definition sub_parens (s : string) : string := sub_parens_from false s.

(** The characters that mean something to the regular-expression
    engine behind polars' [str.contains]. *)
Definition regex_meta : string := "\.+*?()|[]{}^$#&-~".

Fixpoint is_literal_pattern (p : string) : bool :=
  match p with
  | EmptyString => true
  | String c rest =>
      negb (contains (String c EmptyString) regex_meta)
      && is_literal_pattern rest
  end.

(** polars' [str.contains(pattern)] with its default [literal=False]:
    the pattern is a regular expression.  A pattern without
    metacharacters matches exactly where it occurs as a substring;
    other patterns are outside this model ([None]). *)
Definition str_contains_regex (pattern subject : string) : option bool :=
  if is_literal_pattern pattern then Some (contains pattern subject)
  else None.

(** [str.contains(re.escape(text))]: escaping turns every character of
    [text] into a literal, so the test is substring containment. *)
Definition str_contains_escaped (text subject : string) : bool :=
  contains text subject.

(** *** Numbers *)

Local Open Scope float_scope.

(** Truth value of an optional number: [None] and zero are false. *)
Definition truthy (x : option float) : bool :=
  match x with
  | None => false
  | Some v => negb (v =? 0)
  end.

(** *** Dictionaries, in insertion order *)

Definition dict (V : Type) : Type := list (string * V).

Fixpoint dict_get {V} (d : dict V) (k : string) : option V :=
  match d with
  | [] => None
  | (k', v) :: rest => if String.eqb k' k then Some v else dict_get rest k
  end.

Definition dict_mem {V} (d : dict V) (k : string) : bool :=
  match dict_get d k with Some _ => true | None => false end.

(** [d[k] = v]: an existing key keeps its position. *)
Fixpoint dict_set {V} (d : dict V) (k : string) (v : V) : dict V :=
  match d with
  | [] => [(k, v)]
  | (k', v') :: rest =>
      if String.eqb k' k then (k', v) :: rest
      else (k', v') :: dict_set rest k v
  end.

Definition keys {V} (d : dict V) : list string := map fst d.

End Py.

(** ** nutritional_guidelines.py *)

Module NutritionalGuidelines.
Import Py.
Local Open Scope float_scope.

Record NutrientRequirement : Type := mkReq {
  rda_male : option float;
  rda_female : option float;
  upper_limit : option float;
  unit : string;
  name : string
}.

Definition _load_official_guidelines : dict NutrientRequirement :=
  [ ("vitamin_a_ug", mkReq (Some 900) (Some 700) (Some 3000) "μg" "Vitamin A");
    ("vitamin_d_ug", mkReq (Some 15) (Some 15) (Some 100) "μg" "Vitamin D");
    ("vitamin_e_mg", mkReq (Some 15) (Some 15) (Some 1000) "mg" "Vitamin E");
    ("vitamin_k_ug", mkReq (Some 120) (Some 90) None "μg" "Vitamin K");
    ("vitamin_c_mg", mkReq (Some 90) (Some 75) (Some 2000) "mg" "Vitamin C");
    ("thiamin_mg", mkReq (Some 1.2) (Some 1.1) None "mg" "Thiamin (B1)");
    ("riboflavin_mg", mkReq (Some 1.3) (Some 1.1) None "mg" "Riboflavin (B2)");
    ("niacin_mg", mkReq (Some 16) (Some 14) (Some 35) "mg" "Niacin (B3)");
    ("vitamin_b6_mg", mkReq (Some 1.3) (Some 1.3) (Some 100) "mg" "Vitamin B6");
    ("folate_ug", mkReq (Some 400) (Some 400) (Some 1000) "μg" "Folate");
    ("vitamin_b12_ug", mkReq (Some 2.4) (Some 2.4) None "μg" "Vitamin B12");
    ("calcium_mg", mkReq (Some 1000) (Some 1000) (Some 2500) "mg" "Calcium");
    ("iron_mg", mkReq (Some 8) (Some 18) (Some 45) "mg" "Iron");
    ("magnesium_mg", mkReq (Some 400) (Some 310) (Some 350) "mg" "Magnesium");
    ("phosphorus_mg", mkReq (Some 700) (Some 700) (Some 4000) "mg" "Phosphorus");
    ("potassium_mg", mkReq (Some 3400) (Some 2600) None "mg" "Potassium");
    ("sodium_mg", mkReq (Some 1500) (Some 1500) (Some 2300) "mg" "Sodium");
    ("zinc_mg", mkReq (Some 11) (Some 8) (Some 40) "mg" "Zinc");
    ("copper_mg", mkReq (Some 0.9) (Some 0.9) (Some 10) "mg" "Copper");
    ("selenium_ug", mkReq (Some 55) (Some 55) (Some 400) "μg" "Selenium");
    ("manganese_mg", mkReq (Some 2.3) (Some 1.8) (Some 11) "mg" "Manganese");
    ("chromium_ug", mkReq (Some 35) (Some 25) None "μg" "Chromium");
    ("molybdenum_ug", mkReq (Some 45) (Some 45) (Some 2000) "μg" "Molybdenum");
    ("iodine_ug", mkReq (Some 150) (Some 150) (Some 1100) "μg" "Iodine");
    ("protein_g", mkReq (Some 56) (Some 46) None "g" "Protein");
    ("fiber_g", mkReq (Some 38) (Some 25) None "g" "Dietary Fiber");
    ("saturated_fat_g", mkReq None None (Some 20) "g" "Saturated Fat");
    ("cholesterol_mg", mkReq None None (Some 300) "mg" "Cholesterol");
    ("sugars_g", mkReq None None (Some 50) "g" "Added Sugars") ].

(** The dictionary [get_requirement] returns for a known key. *)
Record Requirement : Type := mkRequirement {
  nutrient : string;
  rda : option float;
  req_upper_limit : option float;
  req_unit : string;
  gender_specific_male : option float;
  gender_specific_female : option float
}.

(** The [else] branch of [get_requirement]: the mean of the two
    values, or the one that is there. *)
Definition average_rda (req : NutrientRequirement) : option float :=
  match rda_male req, rda_female req with
  | Some m, Some f => Some ((m + f) / 2)
  | Some m, None => Some m
  | None, Some f => Some f
  | None, None => None
  end.

Definition rda_value (req : NutrientRequirement) (gender : string)
  : option float :=
  match String.eqb gender "male", rda_male req with
  | true, Some m => Some m
  | _, _ =>
      match String.eqb gender "female", rda_female req with
      | true, Some f => Some f
      | _, _ => average_rda req
      end
  end.

(** [get_requirement]; [None] is the empty dictionary returned for a
    key that is not in the table. *)
Definition get_requirement (guidelines : dict NutrientRequirement)
    (nutrient_key gender : string) : option Requirement :=
  match dict_get guidelines nutrient_key with
  | None => None
  | Some req =>
      Some (mkRequirement (name req) (rda_value req gender)
              (upper_limit req) (unit req) (rda_male req) (rda_female req))
  end.

(** The loop of [match_nutrient_key] over the keys, in the
    dictionary's order. *)
Fixpoint fuzzy_match (ks : list string) (nutrient_column : string)
  : string :=
  match ks with
  | [] => ""
  | key :: rest =>
      let key_base := first_segment key in
      if contains key_base (lower nutrient_column)
         && contains (remove_underscores key)
                     (remove_underscores nutrient_column)
      then key
      else fuzzy_match rest nutrient_column
  end.

Definition match_nutrient_key (guidelines : dict NutrientRequirement)
    (nutrient_column : string) : string :=
  if dict_mem guidelines nutrient_column then nutrient_column
  else fuzzy_match (keys guidelines) nutrient_column.

End NutritionalGuidelines.


(** ** nutrient_processor.py *)

Module NutrientProcessor.
Import Py NutritionalGuidelines.
Local Open Scope float_scope.

(** *** Outcomes *)

(** The exceptions the modelled calls can end in. *)
Inductive exn : Type :=
| ZeroDivisionError
| KeyError
| ColumnNotFoundError
| DuplicateError
| ComputeError.

(** A call returns a value, raises, or leaves the modelled fragment
    (a regular expression with metacharacters, see
    [Py.str_contains_regex]). *)
Inductive result (A : Type) : Type :=
| Ok (a : A)
| Raise (e : exn)
| Unmodelled.

Arguments Ok {A} a.
Arguments Raise {A} e.
Arguments Unmodelled {A}.

Definition bind {A B} (m : result A) (k : A -> result B) : result B :=
  match m with
  | Ok a => k a
  | Raise e => Raise e
  | Unmodelled => Unmodelled
  end.

Notation "x <- m ;; k" := (bind m (fun x => k))
  (at level 61, m at next level, right associativity).

(** A [for] loop whose body may raise. *)
Fixpoint for_each {A S} (body : S -> A -> result S) (l : list A) (s : S)
  : result S :=
  match l with
  | [] => Ok s
  | a :: rest => s' <- body s a ;; for_each body rest s'
  end.

(** *** The table *)

(** A row of the food table.  The five metadata columns are fields;
    [amounts] holds the nutrient cells, [None] (or no entry) being a
    null cell. *)
Record FoodRecord : Type := mkFood {
  fdc_id : Z;
  description : string;
  data_type : string;
  serving_size : float;
  serving_unit : string;
  amounts : dict (option float)
}.

Record DataFrame : Type := mkDF {
  columns : list string;
  rows : list FoodRecord
}.

Definition metadata_columns : list string :=
  ["fdc_id"; "description"; "data_type"; "serving_size"; "serving_unit"].

Definition mem (s : string) (l : list string) : bool :=
  existsb (String.eqb s) l.

(** [df.is_empty()]: the frame has no rows. *)
Definition is_empty (df : DataFrame) : bool :=
  match rows df with [] => true | _ => false end.

Definition amount_of (r : FoodRecord) (col : string) : option float :=
  match dict_get (amounts r) col with
  | Some (Some x) => Some x
  | _ => None
  end.

(** An integer cell read as a number. *)
Definition Z2float (z : Z) : float :=
  SF2Prim (binary_normalize prec emax z 0 false).

(** polars orders floating-point values totally: a NaN is greater than
    every other value and equal to itself. *)
Definition pl_gt (x y : float) : bool :=
  (is_nan x && negb (is_nan y)) || (y <? x).

(** [pl.col(c) > 0] as a filter: a null cell does not pass. *)
Definition positive (x : option float) : bool :=
  match x with
  | Some v => pl_gt v 0
  | None => false
  end.

(** *** _clean_data *)

Definition same_description (r r' : FoodRecord) : bool :=
  String.eqb (description r') (description r).

Definition other_description (r r' : FoodRecord) : bool :=
  negb (same_description r r').

(** [df.unique(subset=["description"])].  The call leaves [keep] at
    ["any"] and [maintain_order] at [False]: some row of each group of
    equal descriptions is kept, in some order.  One step picks a row
    that is still there, emits it and drops its group. *)
Inductive pl_unique : list FoodRecord -> list FoodRecord -> Prop :=
| unique_done : pl_unique [] []
| unique_pick (frame out : list FoodRecord) (r : FoodRecord) :
    In r frame ->
    pl_unique (filter (other_description r) frame) out ->
    pl_unique frame (r :: out).

Definition nutrient_columns (cols : list string) : list string :=
  filter (fun col => negb (mem col metadata_columns)) cols.

(** [fill_null(0.0)] on every nutrient column of a row. *)
Definition fill_null (cols : list string) (r : FoodRecord) : FoodRecord :=
  mkFood (fdc_id r) (description r) (data_type r) (serving_size r)
    (serving_unit r)
    (map (fun col =>
            (col, Some match amount_of r col with
                       | Some x => x
                       | None => 0
                       end))
         (nutrient_columns cols)).

(** [_clean_data] as a relation between the frame before and after. *)
Inductive _clean_data : DataFrame -> DataFrame -> Prop :=
| clean_empty (df : DataFrame) :
    is_empty df = true -> _clean_data df df
| clean_rows (df : DataFrame) (out : list FoodRecord) :
    is_empty df = false ->
    pl_unique (rows df) out ->
    _clean_data df (mkDF (columns df) (map (fill_null (columns df)) out)).

(** [df.unique] with [keep="first"] and [maintain_order=True]: the first
    row of every description, in the order of the frame. *)
Fixpoint unique_first (frame : list FoodRecord) : list FoodRecord :=
  match frame with
  | [] => []
  | r :: rest =>
      r :: filter (other_description r) (unique_first rest)
  end.

(** *** get_available_nutrients *)

Definition get_available_nutrients (df : DataFrame) : list string :=
  if is_empty df then [] else nutrient_columns (columns df).

(** *** get_food_nutrients *)

Definition exact_matches (df : DataFrame) (food_name : string)
  : list FoodRecord :=
  filter (fun r => String.eqb (description r) food_name) (rows df).

Definition partial_matches (df : DataFrame) (text : string)
  : list FoodRecord :=
  filter (fun r => str_contains_escaped text (lower (description r)))
         (rows df).

Definition nonempty {A} (l : list A) : bool :=
  match l with [] => false | _ => true end.

(** The frame [matches] of [get_food_nutrients]. *)
Definition food_matches (df : DataFrame) (food_name : string)
  : list FoodRecord :=
  let exact := exact_matches df food_name in
  if nonempty exact then exact
  else
    let matches := partial_matches df (lower food_name) in
    if nonempty matches then matches
    else partial_matches df (lower (strip (sub_parens food_name))).

(** A row of the long format: [description], [nutrient], [amount]. *)
Record Observation : Type := mkObs {
  obs_description : string;
  obs_nutrient : string;
  obs_amount : option float
}.

(** [melt]: one block of rows per nutrient column. *)
Definition melt (matches : list FoodRecord) (nutrient_cols : list string)
  : list Observation :=
  flat_map (fun col =>
              map (fun r => mkObs (description r) col (amount_of r col))
                  matches)
           nutrient_cols.

Definition get_food_nutrients (df : DataFrame) (food_name : string)
  : list Observation :=
  if is_empty df then []
  else
    let matches := food_matches df food_name in
    if nonempty matches then
      filter (fun o => positive (obs_amount o))
             (melt matches (get_available_nutrients df))
    else [].

(** *** get_top_foods_for_nutrient *)

(** A row of the ranking: [description], the nutrient column renamed
    to [amount_per_100g], [serving_size] and [amount_per_ounce]. *)
Record RankedFood : Type := mkRanked {
  rf_description : string;
  amount_per_100g : float;
  rf_serving_size : float;
  amount_per_ounce : float
}.

(** The cell of a record in a numeric column. *)
Definition numeric_cell (r : FoodRecord) (col : string) : option float :=
  if String.eqb col "fdc_id" then Some (Z2float (fdc_id r))
  else amount_of r col.

(** [with_columns]: the per-ounce amount next to the selected cells. *)
Definition with_amount_per_ounce (r : FoodRecord) (v : float) : RankedFood :=
  mkRanked (description r) v (serving_size r) (v * 28.35 / serving_size r).

(** The rows that pass [filter(pl.col(nutrient_col) > 0)], each with
    its per-ounce amount. *)
Fixpoint positive_rows (col : string) (frame : list FoodRecord)
  : list RankedFood :=
  match frame with
  | [] => []
  | r :: rest =>
      match numeric_cell r col with
      | Some v =>
          if pl_gt v 0 then with_amount_per_ounce r v :: positive_rows col rest
          else positive_rows col rest
      | None => positive_rows col rest
      end
  end.

Fixpoint insert_desc (x : RankedFood) (l : list RankedFood)
  : list RankedFood :=
  match l with
  | [] => [x]
  | y :: rest =>
      if pl_gt (amount_per_ounce y) (amount_per_ounce x)
      then y :: insert_desc x rest
      else x :: y :: rest
  end.

(** [sort("amount_per_ounce", descending=True)].  polars does not
    promise an order among equal keys; this sort keeps them in the
    order of the frame. *)
Definition sort_desc (l : list RankedFood) : list RankedFood :=
  fold_right insert_desc [] l.

(** [head(n)]: the first [n] rows, or all but the last [-n] when [n]
    is negative. *)
Definition head {A} (n : Z) (l : list A) : list A :=
  if (n <? 0)%Z then firstn (List.length l - Z.to_nat (- n)) l
  else firstn (Z.to_nat n) l.

Definition matching_columns (df : DataFrame) (nutrient_name : string)
  : list string :=
  filter (fun col => contains (lower nutrient_name) (lower col)) (columns df).

(** [get_top_foods_for_nutrient].  The column search runs over every
    column of the frame.  Selecting [description] or [serving_size]
    lists a column twice in [select]; [data_type] and [serving_unit]
    hold text, which [> 0] rejects; a column called [amount_per_ounce]
    would be overwritten by the computed one, which is left out of the
    model. *)
Definition get_top_foods_for_nutrient (df : DataFrame)
    (nutrient_name : string) (top_n : Z) : result (list RankedFood) :=
  if is_empty df then Ok []
  else
    match matching_columns df nutrient_name with
    | [] => Ok []
    | nutrient_col :: _ =>
        if mem nutrient_col ["description"; "serving_size"] then
          Raise DuplicateError
        else if mem nutrient_col ["data_type"; "serving_unit"] then
          Raise ComputeError
        else if String.eqb nutrient_col "amount_per_ounce" then Unmodelled
        else Ok (head top_n (sort_desc (positive_rows nutrient_col (rows df))))
    end.

(** *** get_nutrient_profile *)

(** An element of [food_items]: the keys [food] and [amount_g]. *)
Record FoodItem : Type := mkItem {
  food : string;
  amount_g : float
}.

Record ProfileRow : Type := mkRow {
  pr_nutrient : string;
  total_amount : float;
  daily_value_pct : option float
}.

(** What [get_nutrient_profile] returns: [pl.DataFrame()], a frame
    without columns, or a frame of rows. *)
Inductive ProfileFrame : Type :=
| NoColumns
| Profile (profile_rows : list ProfileRow).

(** The processor: [self.gender] and [self.df]; [self.guidelines] is
    always the official table. *)
Record Processor : Type := mkProcessor {
  gender : string;
  df : DataFrame
}.

Definition guidelines : dict NutrientRequirement := _load_official_guidelines.

(** [x / y] on Python floats. *)
Definition py_div (x y : float) : result float :=
  if y =? 0 then Raise ZeroDivisionError else Ok (x / y).

(** The filter of [get_nutrient_profile]: the lower-cased name is used
    as a regular expression, unescaped. *)
Fixpoint profile_matches (frame : list FoodRecord) (food_name : string)
  : result (list FoodRecord) :=
  match frame with
  | [] => Ok []
  | r :: rest =>
      match str_contains_regex (lower food_name) (lower (description r)) with
      | None => Unmodelled
      | Some hit =>
          matches <- profile_matches rest food_name ;;
          Ok (if hit then r :: matches else matches)
      end
  end.

(** [nutrient_totals[nutrient] += scaled_value], the entry starting
    from [0] when it is new. *)
Definition add_scaled (nutrient_totals : dict float) (nutrient : string)
    (scaled_value : float) : dict float :=
  match dict_get nutrient_totals nutrient with
  | None => dict_set nutrient_totals nutrient (0 + scaled_value)
  | Some t => dict_set nutrient_totals nutrient (t + scaled_value)
  end.

(** The inner loop over [nutrient_cols] for one matched record. *)
Definition add_nutrient (food_data : FoodRecord) (amount_g : float)
    (nutrient_totals : dict float) (nutrient : string)
  : result (dict float) :=
  match amount_of food_data nutrient with
  | None => Ok nutrient_totals
  | Some value =>
      scaled_value <- py_div (value * amount_g) (serving_size food_data) ;;
      Ok (add_scaled nutrient_totals nutrient scaled_value)
  end.

(** The body of the loop over [food_items]. *)
Definition add_item (frame : DataFrame) (nutrient_cols : list string)
    (nutrient_totals : dict float) (item : FoodItem) : result (dict float) :=
  matches <- profile_matches (rows frame) (food item) ;;
  match matches with
  | [] => Ok nutrient_totals
  | food_data :: _ =>
      for_each (add_nutrient food_data (amount_g item)) nutrient_cols
               nutrient_totals
  end.

(** The percentage of the daily value, when the nutrient matches a
    guideline with a truthy [rda]. *)
Definition daily_value (gender : string) (nutrient_totals : dict float)
    (nutrient : string) : option float :=
  let matched_key := match_nutrient_key guidelines nutrient in
  if String.eqb matched_key "" then None
  else
    match get_requirement guidelines matched_key gender with
    | Some req =>
        match rda req, dict_get nutrient_totals nutrient with
        | Some r, Some t => if truthy (Some r) then Some (t / r * 100) else None
        | _, _ => None
        end
    | None => None
    end.

Definition profile_of (gender : string) (nutrient_totals : dict float)
  : ProfileFrame :=
  match nutrient_totals with
  | [] => NoColumns
  | _ =>
      Profile (map (fun '(nutrient, total) =>
                      mkRow nutrient total
                            (daily_value gender nutrient_totals nutrient))
                   nutrient_totals)
  end.

Definition get_nutrient_profile (self : Processor) (food_items : list FoodItem)
  : result ProfileFrame :=
  if is_empty (df self) then Ok NoColumns
  else
    nutrient_totals <-
      for_each (add_item (df self) (get_available_nutrients (df self)))
               food_items [] ;;
    Ok (profile_of (gender self) nutrient_totals).

(** *** check_daily_requirements *)

Inductive Status : Type := below_minimum | above_maximum | adequate.

Record StatusEntry : Type := mkStatus {
  st_amount : float;
  st_min : option float;
  st_max : option float;
  st_unit : string;
  st_status : Status
}.

(** [if rda and amount < rda: ... elif upper_limit and amount >
    upper_limit: ... else: ...]. *)
Definition classify (rda upper_limit : option float) (amount : float)
  : Status :=
  if truthy rda && match rda with Some r => amount <? r | None => false end
  then below_minimum
  else if truthy upper_limit
          && match upper_limit with Some u => u <? amount | None => false end
  then above_maximum
  else adequate.

(** The body of the loop over the rows of the profile. *)
Definition check_row (gender : string) (status : dict StatusEntry)
    (row : ProfileRow) : result (dict StatusEntry) :=
  let nutrient := pr_nutrient row in
  let amount := total_amount row in
  let matched_key := match_nutrient_key guidelines nutrient in
  if String.eqb matched_key "" then Ok status
  else
    match get_requirement guidelines matched_key gender with
    | None => Raise KeyError
    | Some req =>
        Ok (dict_set status nutrient
              (mkStatus amount (rda req) (req_upper_limit req) (req_unit req)
                 (classify (rda req) (req_upper_limit req) amount)))
    end.

Definition check_daily_requirements (self : Processor)
    (nutrient_profile : ProfileFrame) : result (dict StatusEntry) :=
  match nutrient_profile with
  | NoColumns => Raise ColumnNotFoundError
  | Profile profile_rows => for_each (check_row (gender self)) profile_rows []
  end.

(** *** Reading aids for the properties *)

(** The record [get_nutrient_profile] works with for one item:
    [matches[0]] of the case-insensitive substring filter. *)
Definition first_match (frame : DataFrame) (food_name : string)
  : option FoodRecord :=
  hd_error (partial_matches frame (lower food_name)).

(** What one item adds to the totals when nothing raises: for every
    non-null nutrient of the matched record,
    [value * amount_g / serving_size], with no test on the sign of
    either quantity. *)
Definition contribute (frame : DataFrame) (nutrient_totals : dict float)
    (item : FoodItem) : dict float :=
  match first_match frame (food item) with
  | None => nutrient_totals
  | Some food_data =>
      fold_left
        (fun totals nutrient =>
           match amount_of food_data nutrient with
           | None => totals
           | Some value =>
               add_scaled totals nutrient
                 (value * amount_g item / serving_size food_data)
           end)
        (get_available_nutrients frame) nutrient_totals
  end.

(** The classification rule in the words of the specification: below
    the minimum when an RDA is defined and the amount is under it;
    otherwise above the maximum when an upper limit is defined and the
    amount is over it; otherwise adequate. *)
Definition classification_rule (rda upper_limit : option float)
    (amount : float) : Status :=
  match rda with
  | Some r =>
      if amount <? r then below_minimum
      else match upper_limit with
           | Some u => if u <? amount then above_maximum else adequate
           | None => adequate
           end
  | None =>
      match upper_limit with
      | Some u => if u <? amount then above_maximum else adequate
      | None => adequate
      end
  end.

(** A threshold that is either absent or not zero: the truth value
    tested by [check_daily_requirements] then says whether it is
    defined. *)
Definition threshold_ok (x : option float) : bool :=
  match x with
  | Some v => negb (v =? 0)
  | None => true
  end.

Definition requirement_ok (req : NutrientRequirement) : bool :=
  threshold_ok (rda_male req) && threshold_ok (rda_female req)
  && threshold_ok (average_rda req) && threshold_ok (upper_limit req).

(** What holds of an entry of the result: it comes from a row of the
    profile, carries the thresholds of the matched requirement, and is
    classified by the rule. *)
Definition entry_ok (gender : string) (profile_rows : list ProfileRow)
    (nutrient : string) (e : StatusEntry) : Prop :=
  st_status e = classification_rule (st_min e) (st_max e) (st_amount e)
  /\ exists row req,
       In row profile_rows /\ pr_nutrient row = nutrient
       /\ st_amount e = total_amount row
       /\ get_requirement guidelines (match_nutrient_key guidelines nutrient)
            gender = Some req
       /\ st_min e = rda req /\ st_max e = req_upper_limit req
       /\ st_unit e = req_unit req.

End NutrientProcessor.

From Stdlib Require Import Sorting.Sorted.

(** ** More text operations *)

Module PyText.
Import Py.

Definition is_lower (c : ascii) : bool :=
  let n := nat_of_ascii c in (97 <=? n)%nat && (n <=? 122)%nat.

Definition upper_ascii (c : ascii) : ascii :=
  if is_lower c then ascii_of_nat (nat_of_ascii c - 32) else c.

(** A cased character: an ASCII letter. *)
Definition is_cased (c : ascii) : bool := is_upper c || is_lower c.

(** [str.upper()]. *)
Fixpoint upper (s : string) : string :=
  match s with
  | EmptyString => EmptyString
  | String c rest => String (upper_ascii c) (upper rest)
  end.

(** [str.title()]: a cased character is put in upper case when the
    character before it is not cased, and in lower case otherwise. *)
Fixpoint title_from (previous_is_cased : bool) (s : string) : string :=
  match s with
  | EmptyString => EmptyString
  | String c rest =>
      String (if previous_is_cased then lower_ascii c else upper_ascii c)
             (title_from (is_cased c) rest)
  end.

Definition title (s : string) : string := title_from false s.

(** [s.replace(old, new)] for one-character [old] and [new]. *)
Fixpoint replace_char (old new : ascii) (s : string) : string :=
  match s with
  | EmptyString => EmptyString
  | String c rest =>
      String (if Ascii.eqb c old then new else c) (replace_char old new rest)
  end.

(** [s.replace(old, "")] for a one-character [old]. *)
Fixpoint remove_char (old : ascii) (s : string) : string :=
  match s with
  | EmptyString => EmptyString
  | String c rest =>
      if Ascii.eqb c old then remove_char old rest
      else String c (remove_char old rest)
  end.

(** [s.split(sep)] for a one-character separator. *)
Fixpoint split_on (sep : ascii) (s : string) : list string :=
  match s with
  | EmptyString => [EmptyString]
  | String c rest =>
      if Ascii.eqb c sep then EmptyString :: split_on sep rest
      else match split_on sep rest with
           | part :: parts => String c part :: parts
           | [] => [String c EmptyString]
           end
  end.

(** [sep.join(parts)]. *)
Fixpoint join (sep : string) (parts : list string) : string :=
  match parts with
  | [] => EmptyString
  | [part] => part
  | part :: rest => part ++ sep ++ join sep rest
  end.

(** The two parts of [s.split(sep, 1)] when [sep] occurs in [s]. *)
Fixpoint before_first (sep : ascii) (s : string) : string :=
  match s with
  | EmptyString => EmptyString
  | String c rest =>
      if Ascii.eqb c sep then EmptyString
      else String c (before_first sep rest)
  end.

Fixpoint after_first (sep : ascii) (s : string) : string :=
  match s with
  | EmptyString => EmptyString
  | String c rest =>
      if Ascii.eqb c sep then rest else after_first sep rest
  end.

Fixpoint has_char (x : ascii) (s : string) : bool :=
  match s with
  | EmptyString => false
  | String c rest => Ascii.eqb c x || has_char x rest
  end.

(** A text of ASCII characters only.  On such a text [lower], [upper]
    and [title] do what [str.lower()], [str.upper()] and [str.title()]
    do; elsewhere Python follows Unicode. *)
Fixpoint is_ascii (s : string) : bool :=
  match s with
  | EmptyString => true
  | String c rest => (nat_of_ascii c <? 128)%nat && is_ascii rest
  end.

End PyText.

(** ** nutritional_guidelines.py, continued *)

Module GuidelineTable.
Import Py NutritionalGuidelines.

(** [get_all_requirements]: the requirement of every key of the table,
    in the order of the table. *)
Definition get_all_requirements (guidelines : dict NutrientRequirement)
    (gender : string) : dict (option Requirement) :=
  map (fun entry =>
         (fst entry, get_requirement guidelines (fst entry) gender))
      guidelines.

End GuidelineTable.

(** ** usda_api.py *)

Module UsdaApi.
Import Py PyText.

(** [format_food_name], the helper of [_process_food_data], on an
    ASCII name.  A name with other characters is outside the model
    ([None]): there [str.title()] follows Unicode. *)
Definition format_food_name (name : string) : option string :=
  if is_ascii name then
    Some (if contains "," name then
            let main := before_first "," name in
            let descriptor := after_first "," name in
            (title (strip main) ++ " (" ++ title (strip descriptor) ++ ")")
              %string
          else title name)
  else None.

(** The column key [_process_food_data] builds for one nutrient:
    commas removed from the name, lower case, spaces and hyphens
    turned into underscores, then an underscore and the unit as
    given. *)
Definition name_normalized (name : string) : string :=
  replace_char "-" "_" (replace_char " " "_" (lower (remove_char "," name))).

Definition nutrient_column (name unit : string) : string :=
  name_normalized name ++ "_" ++ unit.

End UsdaApi.

(** ** app.py *)

Module App.
Import Py PyText.

(** [format_nutrient_name] on a string.  The two [replace] calls put a
    text in place of itself and change nothing. *)
Definition format_nutrient_name (nutrient_name : string) : string :=
  let parts := split_on "_" nutrient_name in
  if (List.length parts <? 2)%nat then title nutrient_name
  else
    let unit := upper (last parts EmptyString) in
    let nutrient_part := title (join " " (removelast parts)) in
    nutrient_part ++ " (" ++ unit ++ ")".

End App.

(** ** Reading aids for the further properties *)

Module Aids.
Import Py NutritionalGuidelines NutrientProcessor.
Local Open Scope float_scope.

(** A NaN, read off the IEEE class of the value. *)
Definition sf_is_nan (a : spec_float) : bool :=
  match a with
  | S754_nan => true
  | _ => false
  end.

(** [x] may stand before [y] in a descending ranking: [y]'s amount
    per ounce is not greater than [x]'s. *)
Definition ranked_before (x y : RankedFood) : Prop :=
  pl_gt (amount_per_ounce y) (amount_per_ounce x) = false.

(** The entry [check_daily_requirements] writes for one row of the
    profile, if it writes one. *)
Definition status_entry (gender : string) (row : ProfileRow)
  : option StatusEntry :=
  let matched_key := match_nutrient_key guidelines (pr_nutrient row) in
  if String.eqb matched_key "" then None
  else
    match get_requirement guidelines matched_key gender with
    | Some req =>
        Some (mkStatus (total_amount row) (rda req) (req_upper_limit req)
                (req_unit req)
                (classify (rda req) (req_upper_limit req) (total_amount row)))
    | None => None
    end.

(** What the totals always satisfy: every nutrient once, and only
    nutrients of the given columns. *)
Definition totals_ok (cols : list string) (totals : dict float) : Prop :=
  NoDup (keys totals) /\ forall k, In k (keys totals) -> In k cols.

(** The name under which a food of the loader can be looked up: the
    text before the first comma, trimmed, or the whole name when it has
    no comma. *)
Definition main_name (name : string) : string :=
  if contains "," name then strip (PyText.before_first "," name) else name.

End Aids.

(** ** Sample data *)

Module Samples.
Import Py NutritionalGuidelines NutrientProcessor.
Local Open Scope float_scope.

Definition metadata_then (cols : list string) : list string :=
  metadata_columns ++ cols.

(** A table with the single food ["Apple, Raw"]. *)
Definition apple_raw : FoodRecord :=
  mkFood 171688 "Apple, Raw" "SR Legacy" 100 "g"
    [("protein_G", Some 0.26); ("iron_fe_MG", Some 0.12)].

Definition apple_table : DataFrame :=
  mkDF (metadata_then ["protein_G"; "iron_fe_MG"]) [apple_raw].

(** Two foods whose descriptions both contain ["apple"]. *)
Definition apple_pie : FoodRecord :=
  mkFood 1 "Apple Pie" "SR Legacy" 100 "g" [("protein_G", Some 2.4)].

Definition apple : FoodRecord :=
  mkFood 2 "Apple" "SR Legacy" 100 "g" [("protein_G", Some 0.3)].

Definition pie_table : DataFrame :=
  mkDF (metadata_then ["protein_G"]) [apple_pie; apple].

(** A record whose serving size is zero. *)
Definition broth : FoodRecord :=
  mkFood 3 "Broth" "SR Legacy" 0 "g" [("iron_mg", Some 1)].

(** A record with the serving size the loader writes, 100 g. *)
Definition beef : FoodRecord :=
  mkFood 4 "Beef" "SR Legacy" 100 "g" [("iron_mg", Some 2)].

Definition broth_table : DataFrame :=
  mkDF (metadata_then ["iron_mg"]) [broth].

Definition beef_table : DataFrame :=
  mkDF (metadata_then ["iron_mg"]) [beef].

Definition soup_table : DataFrame :=
  mkDF (metadata_then ["iron_mg"]) [beef; broth].

(** Two records with one description, and a third food. *)
Definition gala_first : FoodRecord :=
  mkFood 10 "Gala" "Foundation" 100 "g" [("iron_mg", Some 1)].

Definition gala_second : FoodRecord :=
  mkFood 11 "Gala" "SR Legacy" 100 "g" [("iron_mg", None)].

Definition fuji : FoodRecord :=
  mkFood 12 "Fuji" "Foundation" 100 "g" [].

Definition orchard : DataFrame :=
  mkDF (metadata_then ["iron_mg"]) [gala_first; gala_second; fuji].

(** The foods of the pie table, second one first. *)
Definition pie_table_swapped : DataFrame :=
  mkDF (columns pie_table) (map (fill_null (columns pie_table)) [apple; apple_pie]).

(** A food as the loader stores it: the USDA name ["Apples, raw, with
    skin"], formatted. *)
Definition stored_apples : FoodRecord :=
  mkFood 171688 "Apples (Raw, With Skin)" "SR Legacy" 100 "g"
    [("protein_G", Some 0.26)].

Definition stored_table : DataFrame :=
  mkDF (metadata_then ["protein_G"]) [stored_apples].

(** A table with two vitamin columns. *)
Definition vitamin_table : DataFrame :=
  mkDF (metadata_then ["vitamin_a_ug"; "vitamin_c_mg"])
    [mkFood 5 "Orange" "SR Legacy" 100 "g"
       [("vitamin_a_ug", Some 11); ("vitamin_c_mg", Some 53.2)]].

End Samples.

(** * Properties *)

Import Py NutritionalGuidelines NutrientProcessor Samples.
Local Open Scope float_scope.

(** ** Strings *)

Section StringFacts.

Lemma lower_ascii_underscore (c : ascii) :
  Ascii.eqb (lower_ascii c) "_" = Ascii.eqb c "_".
Proof.
  destruct c as [[] [] [] [] [] [] [] []]; reflexivity.
Qed.

Lemma length_lower (s : string) : String.length (lower s) = String.length s.
Proof.
  induction s as [|c s IH]; simpl; congruence.
Qed.

Lemma remove_underscores_lower (s : string) :
  remove_underscores (lower s) = lower (remove_underscores s).
Proof.
  induction s as [|c s IH]; simpl; [reflexivity|].
  rewrite lower_ascii_underscore.
  destruct (Ascii.eqb c "_"); simpl; congruence.
Qed.

Lemma prefix_lower (a b : string) :
  String.prefix a b = true -> String.prefix (lower a) (lower b) = true.
Proof.
  revert b; induction a as [|x a IH]; intros [|y b]; simpl; try easy.
  destruct (ascii_dec x y) as [->|]; [|discriminate].
  intros H. destruct (ascii_dec (lower_ascii y) (lower_ascii y)); auto.
Qed.

Lemma contains_lower (a b : string) :
  contains a b = true -> contains (lower a) (lower b) = true.
Proof.
  induction b as [|y b IH]; simpl; rewrite !orb_true_iff.
  - intros [H|H]; [|discriminate]. left.
    apply (prefix_lower a EmptyString H).
  - intros [H|H]; [left|right; auto].
    apply (prefix_lower a (String y b) H).
Qed.

Lemma prefix_length (a b : string) :
  String.prefix a b = true -> (String.length a <= String.length b)%nat.
Proof.
  revert b; induction a as [|x a IH]; intros [|y b]; simpl; try easy; try lia.
  destruct (ascii_dec x y); [|discriminate].
  intros H; apply IH in H; lia.
Qed.

Lemma contains_length (a b : string) :
  contains a b = true -> (String.length a <= String.length b)%nat.
Proof.
  induction b as [|y b IH]; simpl; rewrite orb_true_iff.
  - intros [H|H]; [|discriminate]. apply (prefix_length a EmptyString H).
  - intros [H|H]; [apply (prefix_length a (String y b) H)|].
    apply IH in H; lia.
Qed.

Lemma prefix_same_length (a b : string) :
  String.prefix a b = true -> String.length a = String.length b -> a = b.
Proof.
  revert b; induction a as [|x a IH]; intros [|y b]; simpl; try easy.
  destruct (ascii_dec x y) as [->|]; [|discriminate].
  intros H L; f_equal; apply IH; auto.
Qed.

Lemma contains_same_length (a b : string) :
  contains a b = true -> String.length a = String.length b -> a = b.
Proof.
  destruct b as [|y b]; simpl; rewrite orb_true_iff.
  - intros [H|H] L; [|discriminate].
    apply (prefix_same_length a EmptyString H L).
  - intros [H|H] L; [apply (prefix_same_length a (String y b) H L)|].
    apply contains_length in H; simpl in L; lia.
Qed.

(** A string is determined by its lower-case form and its text
    without underscores. *)
Lemma lower_and_stripped_determine (s k : string) :
  lower s = k -> remove_underscores s = remove_underscores k -> s = k.
Proof.
  revert k; induction s as [|c s IH]; intros [|x k]; simpl; try easy.
  intros L; injection L as Lc Ls. subst x.
  rewrite lower_ascii_underscore.
  destruct (Ascii.eqb c "_") eqn:E.
  - intros R. apply Ascii.eqb_eq in E; subst c.
    f_equal. apply IH; assumption.
  - intros R; injection R as Rc Rs.
    rewrite <- Rc. f_equal. apply IH; assumption.
Qed.

End StringFacts.

(** ** Guidelines *)

Section GuidelineFacts.

Lemma dict_mem_keys {V} (d : dict V) (k : string) :
  dict_mem d k = true <-> In k (keys d).
Proof.
  unfold dict_mem, keys.
  induction d as [|[k' v] d IH]; simpl; [split; [discriminate|tauto]|].
  destruct (String.eqb k' k) eqn:E.
  - apply String.eqb_eq in E. split; auto.
  - apply String.eqb_neq in E. rewrite IH. split; [auto|].
    intros [H|H]; [contradiction|assumption].
Qed.

Lemma rda_value_not_male_female (req : NutrientRequirement) (gender : string) :
  gender <> "male" -> gender <> "female" ->
  rda_value req gender = average_rda req.
Proof.
  intros Hm Hf. unfold rda_value.
  apply String.eqb_neq in Hm, Hf. rewrite Hm, Hf. reflexivity.
Qed.

Lemma rda_value_average (req : NutrientRequirement) :
  rda_value req "average" = average_rda req.
Proof.
  apply rda_value_not_male_female; discriminate.
Qed.

Lemma fuzzy_match_none (ks : list string) (s : string) :
  (forall k, In k ks ->
     contains (remove_underscores k) (remove_underscores s) = false) ->
  fuzzy_match ks s = "".
Proof.
  induction ks as [|k ks IH]; simpl; intros H; [reflexivity|].
  rewrite (H k) by auto. rewrite andb_false_r. apply IH; auto.
Qed.

End GuidelineFacts.

(** Every key of the official table is in lower case. *)
Lemma official_keys_lower (k : string) :
  In k (keys _load_official_guidelines) -> lower k = k.
Proof.
  assert (C : forallb (fun k => String.eqb (lower k) k)
                (keys _load_official_guidelines) = true) by (vm_compute; reflexivity).
  rewrite forallb_forall in C. intros H.
  apply String.eqb_eq, C, H.
Qed.

(** No key of the official table, underscores removed, occurs inside
    another one. *)
Lemma official_keys_apart (k k' : string) :
  In k (keys _load_official_guidelines) ->
  In k' (keys _load_official_guidelines) ->
  contains (remove_underscores k) (remove_underscores k') = true -> k = k'.
Proof.
  assert (C : forallb (fun a =>
                forallb (fun b =>
                  implb (contains (remove_underscores a) (remove_underscores b))
                        (String.eqb a b))
                  (keys _load_official_guidelines))
                (keys _load_official_guidelines) = true) by (vm_compute; reflexivity).
  rewrite forallb_forall in C. intros Hk Hk' Hc.
  specialize (C k Hk). rewrite forallb_forall in C. specialize (C k' Hk').
  rewrite Hc in C. simpl in C. apply String.eqb_eq, C.
Qed.

(** C7. With gender ["average"], [get_requirement] gives the mean of
    [rda_male] and [rda_female] when both are defined, the defined one
    when only one is, and no [rda] when neither is; a key that is not
    in the table gives the empty result.  For iron (8 and 18) the
    average is 13. *)
Theorem get_requirement_average :
  (forall (g : dict NutrientRequirement) (key : string),
     match dict_get g key with
     | None => get_requirement g key "average" = None
     | Some req =>
         exists view,
           get_requirement g key "average" = Some view
           /\ rda view = match rda_male req, rda_female req with
                         | Some m, Some f => Some ((m + f) / 2)
                         | Some m, None => Some m
                         | None, Some f => Some f
                         | None, None => None
                         end
     end)
  /\ (exists view,
        get_requirement _load_official_guidelines "iron_mg" "average" = Some view
        /\ gender_specific_male view = Some 8
        /\ gender_specific_female view = Some 18
        /\ rda view = Some 13).
Proof.
  split.
  - intros g key. unfold get_requirement.
    destruct (dict_get g key) as [req|]; [|reflexivity].
    eexists; split; [reflexivity|]. simpl.
    rewrite rda_value_average. reflexivity.
  - eexists; split; [reflexivity|]. repeat split.
Qed.

(** C9. Any gender other than exactly ["male"] or ["female"] is
    treated as ["average"], and a request for a sex whose own RDA is
    undefined takes the averaging branch as well. *)
Theorem get_requirement_falls_back (g : dict NutrientRequirement) (key : string) :
  (forall gender, gender <> "male" -> gender <> "female" ->
     get_requirement g key gender = get_requirement g key "average")
  /\ (forall req, dict_get g key = Some req -> rda_male req = None ->
        get_requirement g key "male" = get_requirement g key "average"
        /\ get_requirement g key "male"
           = Some (mkRequirement (name req) (average_rda req) (upper_limit req)
                     (unit req) (rda_male req) (rda_female req)))
  /\ (forall req, dict_get g key = Some req -> rda_female req = None ->
        get_requirement g key "female" = get_requirement g key "average"
        /\ get_requirement g key "female"
           = Some (mkRequirement (name req) (average_rda req) (upper_limit req)
                     (unit req) (rda_male req) (rda_female req))).
Proof.
  unfold get_requirement. split; [|split].
  - intros gender Hm Hf. destruct (dict_get g key); [|reflexivity].
    rewrite rda_value_average, rda_value_not_male_female by assumption.
    reflexivity.
  - intros req Hreq Hnone. rewrite Hreq, rda_value_average.
    unfold rda_value. simpl. rewrite Hnone. split; reflexivity.
  - intros req Hreq Hnone. rewrite Hreq, rda_value_average.
    unfold rda_value. simpl. rewrite Hnone.
    destruct (rda_male req); split; reflexivity.
Qed.

Lemma get_requirement_falls_back_witness :
  get_requirement _load_official_guidelines "iron_mg" "Male"
  = get_requirement _load_official_guidelines "iron_mg" "average"
  /\ get_requirement _load_official_guidelines "iron_mg" ""
     = get_requirement _load_official_guidelines "iron_mg" "average"
  /\ get_requirement _load_official_guidelines "sugars_g" "male"
     = get_requirement _load_official_guidelines "sugars_g" "average"
  /\ get_requirement _load_official_guidelines "sugars_g" "female"
     = get_requirement _load_official_guidelines "sugars_g" "average".
Proof.
  pose proof (get_requirement_falls_back _load_official_guidelines "iron_mg")
    as [Hother _].
  pose proof (get_requirement_falls_back _load_official_guidelines "sugars_g")
    as [_ [Hmale Hfemale]].
  split; [|split; [|split]].
  - apply Hother; discriminate.
  - apply Hother; discriminate.
  - eapply Hmale; reflexivity.
  - eapply Hfemale; reflexivity.
Defined.

(** C10. In the fuzzy tier of [match_nutrient_key] only the test on
    the first key segment sees the identifier in lower case; the test
    on the key without underscores sees it as written.  So an
    identifier that is a canonical key up to upper-case letters
    matches nothing, [Vitamin_C_Mg] for one. *)
Theorem match_nutrient_key_upper_case :
  (forall s : string,
     In (lower s) (keys _load_official_guidelines) -> lower s <> s ->
     match_nutrient_key _load_official_guidelines s = "")
  /\ match_nutrient_key _load_official_guidelines "Vitamin_C_Mg" = ""
  /\ match_nutrient_key _load_official_guidelines "IRON_ir_onmg" = "iron_mg"
  /\ match_nutrient_key _load_official_guidelines "XXXX_ir_onmg" = ""
  /\ match_nutrient_key _load_official_guidelines "iron_ir_onmg" = "iron_mg"
  /\ match_nutrient_key _load_official_guidelines "iron_IR_ONMG" = "".
Proof.
  split; [|repeat split].
  intros s Hin Hne. unfold match_nutrient_key.
  destruct (dict_mem _load_official_guidelines s) eqn:M.
  - apply dict_mem_keys in M. apply official_keys_lower in M. contradiction.
  - apply fuzzy_match_none. intros k Hk.
    destruct (contains (remove_underscores k) (remove_underscores s)) eqn:C;
      [exfalso|reflexivity].
    pose proof (contains_lower _ _ C) as CL.
    rewrite <- !remove_underscores_lower in CL.
    rewrite (official_keys_lower k Hk) in CL.
    pose proof (official_keys_apart _ _ Hk Hin CL) as E. subst k.
    apply Hne. symmetry.
    apply lower_and_stripped_determine; [reflexivity|].
    symmetry. apply contains_same_length; [exact C|].
    rewrite remove_underscores_lower. apply length_lower.
Qed.

Lemma match_nutrient_key_upper_case_witness :
  match_nutrient_key _load_official_guidelines "Vitamin_B12_ug" = "".
Proof.
  apply (proj1 match_nutrient_key_upper_case "Vitamin_B12_ug").
  - vm_compute. tauto.
  - discriminate.
Defined.

(** ** Lists *)

Section ListFacts.

Context {A : Type}.

Lemma filter_none (p : A -> bool) (l : list A) :
  (forall x, In x l -> p x = false) -> filter p l = [].
Proof.
  induction l as [|x l IH]; simpl; intros H; [reflexivity|].
  rewrite (H x) by auto. apply IH; auto.
Qed.

Lemma nonempty_in (x : A) (l : list A) : In x l -> nonempty l = true.
Proof.
  destruct l; simpl; [contradiction|reflexivity].
Qed.

Lemma is_empty_in (r : FoodRecord) (df : DataFrame) :
  In r (rows df) -> is_empty df = false.
Proof.
  unfold is_empty. destruct (rows df); simpl; [contradiction|reflexivity].
Qed.

End ListFacts.

(** ** get_food_nutrients *)

(** C8, as stated, fails: ["apple raw"] has no comma, so it is not a
    substring of ["apple, raw"]; no tier matches and the result is
    empty. *)
Lemma apple_raw_query_finds_nothing :
  exact_matches apple_table "apple raw" = []
  /\ partial_matches apple_table (lower "apple raw") = []
  /\ partial_matches apple_table (lower (strip (sub_parens "apple raw"))) = []
  /\ food_matches apple_table "apple raw" = []
  /\ get_food_nutrients apple_table "apple raw" = [].
Proof.
  repeat split.
Qed.

(** C8, amended.  With the comma in the query: in a table that holds a
    record described as ["Apple, Raw"] and none described exactly as
    ["apple, raw"], the exact tier finds nothing and the
    case-insensitive substring tier finds that record; its positive
    nutrient amounts are returned. *)
Theorem apple_raw_second_tier (table : DataFrame) (r : FoodRecord) :
  In r (rows table) ->
  description r = "Apple, Raw" ->
  (forall r', In r' (rows table) -> description r' <> "apple, raw") ->
  exact_matches table "apple, raw" = []
  /\ food_matches table "apple, raw"
     = partial_matches table (lower "apple, raw")
  /\ In r (food_matches table "apple, raw")
  /\ (forall col v,
        In col (get_available_nutrients table) ->
        amount_of r col = Some v -> pl_gt v 0 = true ->
        In (mkObs "Apple, Raw" col (Some v))
           (get_food_nutrients table "apple, raw")).
Proof.
  intros Hin Hdesc Hexact.
  assert (E : exact_matches table "apple, raw" = []).
  { apply filter_none. intros r' Hr'. apply String.eqb_neq. auto. }
  assert (P : In r (partial_matches table (lower "apple, raw"))).
  { apply filter_In. split; [assumption|]. rewrite Hdesc. reflexivity. }
  assert (F : food_matches table "apple, raw"
              = partial_matches table (lower "apple, raw")).
  { unfold food_matches. rewrite E. cbn [nonempty]. cbv zeta.
    rewrite (nonempty_in _ _ P). reflexivity. }
  split; [exact E|]. split; [exact F|]. split; [rewrite F; exact P|].
  intros col v Hcol Hv Hpos.
  unfold get_food_nutrients.
  rewrite (is_empty_in _ _ Hin), F, (nonempty_in _ _ P).
  apply filter_In. split; [|exact Hpos].
  unfold melt. apply in_flat_map. exists col. split; [exact Hcol|].
  rewrite <- Hv, <- Hdesc. apply (in_map (fun r => mkObs (description r) col (amount_of r col))).
  exact P.
Qed.

Lemma apple_raw_second_tier_witness :
  exact_matches apple_table "apple, raw" = []
  /\ food_matches apple_table "apple, raw"
     = partial_matches apple_table (lower "apple, raw")
  /\ In apple_raw (food_matches apple_table "apple, raw")
  /\ (forall col v,
        In col (get_available_nutrients apple_table) ->
        amount_of apple_raw col = Some v -> pl_gt v 0 = true ->
        In (mkObs "Apple, Raw" col (Some v))
           (get_food_nutrients apple_table "apple, raw")).
Proof.
  apply (apple_raw_second_tier apple_table apple_raw).
  - simpl. auto.
  - reflexivity.
  - intros r' [<-|[]]. discriminate.
Defined.

(** ** get_nutrient_profile *)

Section ProfileFacts.

Variable table : DataFrame.

Lemma profile_matches_ok (frame : list FoodRecord) (q : string)
    (ms : list FoodRecord) :
  profile_matches frame q = Ok ms ->
  ms = filter (fun r => str_contains_escaped (lower q) (lower (description r)))
              frame.
Proof.
  revert ms; induction frame as [|r frame IH]; simpl; intros ms H.
  - congruence.
  - unfold str_contains_regex in H.
    destruct (is_literal_pattern (lower q)); [|discriminate].
    destruct (profile_matches frame q) as [ms'| |]; simpl in H; try discriminate.
    injection H as <-. rewrite (IH ms' eq_refl).
    unfold str_contains_escaped. reflexivity.
Qed.

Lemma profile_matches_literal (frame : list FoodRecord) (q : string) :
  is_literal_pattern (lower q) = true ->
  profile_matches frame q
  = Ok (filter (fun r => str_contains_escaped (lower q) (lower (description r)))
               frame).
Proof.
  intros L; induction frame as [|r frame IH]; simpl; [reflexivity|].
  unfold str_contains_regex. rewrite L, IH. simpl.
  unfold str_contains_escaped. reflexivity.
Qed.

Lemma add_nutrients_ok (r : FoodRecord) (grams : float) (cols : list string)
    (totals : dict float) :
  (serving_size r =? 0) = false ->
  for_each (add_nutrient r grams) cols totals
  = Ok (fold_left
          (fun totals nutrient =>
             match amount_of r nutrient with
             | None => totals
             | Some value =>
                 add_scaled totals nutrient (value * grams / serving_size r)
             end)
          cols totals).
Proof.
  intros Hs; revert totals; induction cols as [|c cols IH]; intros totals;
    simpl; [reflexivity|].
  unfold add_nutrient at 1, py_div.
  destruct (amount_of r c) as [v|]; simpl; [rewrite Hs; simpl|]; apply IH.
Qed.

Lemma add_item_ok (totals : dict float) (item : FoodItem) :
  is_literal_pattern (lower (food item)) = true ->
  (forall r, first_match table (food item) = Some r ->
             (serving_size r =? 0) = false) ->
  add_item table (get_available_nutrients table) totals item
  = Ok (contribute table totals item).
Proof.
  intros L Hs. unfold add_item, contribute, first_match, partial_matches in *.
  rewrite (profile_matches_literal _ _ L). simpl.
  destruct (filter _ (rows table)) as [|r ms]; simpl in *; [reflexivity|].
  apply add_nutrients_ok. apply Hs. reflexivity.
Qed.

Lemma add_items_ok (items : list FoodItem) (totals : dict float) :
  (forall item, In item items ->
     is_literal_pattern (lower (food item)) = true) ->
  (forall item r, In item items -> first_match table (food item) = Some r ->
     (serving_size r =? 0) = false) ->
  for_each (add_item table (get_available_nutrients table)) items totals
  = Ok (fold_left (contribute table) items totals).
Proof.
  revert totals; induction items as [|item items IH]; intros totals L Hs;
    simpl; [reflexivity|].
  rewrite add_item_ok; simpl.
  - apply IH; intros; [apply L | eapply Hs]; simpl; eauto.
  - apply L; simpl; auto.
  - intros r Hr. apply (Hs item r); simpl; auto.
Qed.

End ProfileFacts.

(** C1, as stated, fails: nothing is skipped for a non-positive
    quantity.  A matched record with serving size zero raises
    [ZeroDivisionError], alone or after a valid item, and a negative
    [amount_g] is scaled and added like any other. *)
Lemma invalid_contributions_not_skipped :
  get_nutrient_profile (mkProcessor "average" broth_table)
    [mkItem "broth" 100] = Raise ZeroDivisionError
  /\ get_nutrient_profile (mkProcessor "average" soup_table)
       [mkItem "beef" 100; mkItem "broth" 100] = Raise ZeroDivisionError
  /\ get_nutrient_profile (mkProcessor "average" beef_table)
       [mkItem "beef" (-50)]
     = Ok (Profile [mkRow "iron_mg" (-1) (Some (-1 / 13 * 100))]).
Proof.
  repeat split.
Qed.

(** C1, amended.  [get_nutrient_profile] checks neither [amount_g] nor
    [serving_size]; an item is passed over only when no description
    matches it.  When the serving size of every matched record is not
    zero, the aggregation completes, and every matched item adds
    [value * amount_g / serving_size] for each non-null nutrient,
    whatever the signs. *)
Theorem get_nutrient_profile_unguarded (self : Processor)
    (food_items : list FoodItem) :
  (forall item, In item food_items ->
     is_literal_pattern (lower (food item)) = true) ->
  (forall item r, In item food_items ->
     first_match (df self) (food item) = Some r ->
     (serving_size r =? 0) = false) ->
  get_nutrient_profile self food_items
  = Ok (if is_empty (df self) then NoColumns
        else profile_of (gender self)
               (fold_left (contribute (df self)) food_items [])).
Proof.
  intros L Hs. unfold get_nutrient_profile.
  destruct (is_empty (df self)); [reflexivity|].
  rewrite (add_items_ok (df self) food_items [] L Hs). reflexivity.
Qed.

Lemma get_nutrient_profile_unguarded_witness :
  get_nutrient_profile (mkProcessor "female" soup_table)
    [mkItem "beef" (-50); mkItem "rice" 80; mkItem "beef" 150]
  = Ok (Profile [mkRow "iron_mg" 2 (Some (2 / 18 * 100))]).
Proof.
  rewrite (get_nutrient_profile_unguarded (mkProcessor "female" soup_table)).
  - reflexivity.
  - intros item [<-|[<-|[<-|[]]]]; reflexivity.
  - intros item r [<-|[<-|[<-|[]]]] H; vm_compute in H;
      try discriminate; injection H as <-; reflexivity.
Defined.

(** C2, as stated, fails: the profile has no exact tier and no
    parenthesis-stripped tier.  For ["Apple"] it takes ["Apple Pie"],
    the first description containing the name, where the tiered
    resolution returns the exact match ["Apple"]; for [" apple"] it
    finds nothing where the third tier, which trims the name, finds
    both. *)
Lemma profile_takes_first_substring_match :
  profile_matches (rows pie_table) "Apple" = Ok [apple_pie; apple]
  /\ food_matches pie_table "Apple" = [apple]
  /\ get_nutrient_profile (mkProcessor "average" pie_table)
       [mkItem "Apple" 100]
     = Ok (Profile [mkRow "protein_G" (0 + 2.4 * 100 / 100) None])
  /\ profile_matches (rows pie_table) " apple" = Ok []
  /\ food_matches pie_table " apple" = [apple_pie; apple].
Proof.
  repeat split.
Qed.

(** The first element that passes a filter: it passes, and nothing
    before it does. *)
Lemma hd_error_filter {A} (p : A -> bool) (l : list A) (x : A) :
  hd_error (filter p l) = Some x ->
  exists before after,
    l = before ++ x :: after /\ p x = true
    /\ forall y, In y before -> p y = false.
Proof.
  induction l as [|a l IH]; simpl; [discriminate|].
  destruct (p a) eqn:E; simpl.
  - intros H; injection H as ->. exists [], l. simpl. tauto.
  - intros H. destruct (IH H) as (before & after & -> & Hx & Hb).
    exists (a :: before), after. simpl. split; [reflexivity|].
    split; [exact Hx|]. intros y [<-|Hy]; auto.
Qed.

(** C2, amended.  For a name without regular-expression
    metacharacters, the body of the loop of [get_nutrient_profile]
    works with the first record whose lower-cased description contains
    the lower-cased name, and passes the item over when there is none:
    the second tier alone, without the exact tier and without the
    parenthesis-stripped tier.  When such a record exists and no
    description equals the name exactly, it is the first record of the
    tiered resolution of [get_food_nutrients]. *)
Theorem profile_selects_second_tier (self : Processor) (item : FoodItem)
    (nutrient_totals : dict float) :
  is_literal_pattern (lower (food item)) = true ->
  add_item (df self) (get_available_nutrients (df self)) nutrient_totals item
  = match first_match (df self) (food item) with
    | Some food_data =>
        for_each (add_nutrient food_data (amount_g item))
                 (get_available_nutrients (df self)) nutrient_totals
    | None => Ok nutrient_totals
    end
  /\ get_nutrient_profile self [item]
     = (if is_empty (df self) then Ok NoColumns
        else
          totals <-
            match first_match (df self) (food item) with
            | Some food_data =>
                for_each (add_nutrient food_data (amount_g item))
                         (get_available_nutrients (df self)) []
            | None => Ok []
            end ;;
          Ok (profile_of (gender self) totals))
  /\ (forall r, first_match (df self) (food item) = Some r ->
        (exists before after,
           rows (df self) = before ++ r :: after
           /\ contains (lower (food item)) (lower (description r)) = true
           /\ forall r', In r' before ->
                contains (lower (food item)) (lower (description r')) = false)
        /\ (exact_matches (df self) (food item) = [] ->
            hd_error (food_matches (df self) (food item)) = Some r)).
Proof.
  intros L.
  assert (Body : forall totals,
             add_item (df self) (get_available_nutrients (df self)) totals item
             = match first_match (df self) (food item) with
               | Some food_data =>
                   for_each (add_nutrient food_data (amount_g item))
                            (get_available_nutrients (df self)) totals
               | None => Ok totals
               end).
  { intros totals. unfold add_item, first_match, partial_matches.
    rewrite (profile_matches_literal _ _ L). simpl.
    destruct (filter _ (rows (df self))); reflexivity. }
  split; [apply Body|]. split.
  - unfold get_nutrient_profile. destruct (is_empty (df self)); [reflexivity|].
    simpl. rewrite Body.
    destruct (first_match (df self) (food item)) as [food_data|];
      [|reflexivity].
    destruct (for_each (add_nutrient food_data (amount_g item))
                (get_available_nutrients (df self)) [])
      as [totals| |]; reflexivity.
  - intros r Hr. split.
    + unfold first_match, partial_matches, str_contains_escaped in Hr.
      exact (hd_error_filter _ _ _ Hr).
    + intros E. unfold food_matches. rewrite E. cbn [nonempty]. cbv zeta.
      unfold first_match in Hr.
      destruct (partial_matches (df self) (lower (food item)));
        [discriminate|exact Hr].
Qed.

Lemma profile_selects_second_tier_witness :
  add_item pie_table (get_available_nutrients pie_table) []
    (mkItem "apple" 100)
  = Ok [("protein_G", (0 + 2.4 * 100 / 100)%float)]
  /\ get_nutrient_profile (mkProcessor "average" pie_table)
       [mkItem "apple" 100]
     = Ok (Profile [mkRow "protein_G" (0 + 2.4 * 100 / 100) None])
  /\ hd_error (food_matches pie_table "apple") = Some apple_pie.
Proof.
  destruct (profile_selects_second_tier (mkProcessor "average" pie_table)
              (mkItem "apple" 100) [] eq_refl) as (Body & Whole & Tiers).
  split; [exact (eq_trans Body eq_refl)|].
  split; [exact (eq_trans Whole eq_refl)|].
  apply (proj2 (Tiers apple_pie eq_refl)). reflexivity.
Defined.

(** ** get_top_foods_for_nutrient *)

Section RankingFacts.

Lemma in_insert_desc (x y : RankedFood) (l : list RankedFood) :
  In x (insert_desc y l) <-> x = y \/ In x l.
Proof.
  induction l as [|z l IH]; simpl.
  - intuition congruence.
  - destruct (pl_gt (amount_per_ounce z) (amount_per_ounce y)); simpl.
    + rewrite IH. intuition congruence.
    + intuition congruence.
Qed.

Lemma in_sort_desc (x : RankedFood) (l : list RankedFood) :
  In x (sort_desc l) <-> In x l.
Proof.
  unfold sort_desc. induction l as [|y l IH]; simpl; [tauto|].
  rewrite in_insert_desc, IH. intuition congruence.
Qed.

Lemma length_insert_desc (y : RankedFood) (l : list RankedFood) :
  List.length (insert_desc y l) = S (List.length l).
Proof.
  induction l as [|z l IH]; simpl; [reflexivity|].
  destruct (pl_gt _ _); simpl; congruence.
Qed.

Lemma length_sort_desc (l : list RankedFood) :
  List.length (sort_desc l) = List.length l.
Proof.
  unfold sort_desc. induction l as [|y l IH]; simpl; [reflexivity|].
  rewrite length_insert_desc. congruence.
Qed.

Lemma in_firstn {A} (n : nat) (x : A) (l : list A) :
  In x (firstn n l) -> In x l.
Proof.
  intros H. rewrite <- (firstn_skipn n l). apply in_or_app. auto.
Qed.

Lemma in_head {A} (n : Z) (x : A) (l : list A) : In x (head n l) -> In x l.
Proof.
  unfold head. destruct (n <? 0)%Z; apply in_firstn.
Qed.

Lemma head_all {A} (n : Z) (l : list A) :
  (Z.of_nat (List.length l) <= n)%Z -> head n l = l.
Proof.
  intros H. unfold head.
  destruct (n <? 0)%Z eqn:E; [apply Z.ltb_lt in E; lia|].
  apply firstn_all2. lia.
Qed.

Lemma in_positive_rows (col : string) (frame : list FoodRecord)
    (x : RankedFood) :
  In x (positive_rows col frame) <->
  exists r v, In r frame /\ numeric_cell r col = Some v
              /\ pl_gt v 0 = true /\ x = with_amount_per_ounce r v.
Proof.
  induction frame as [|r frame IH]; simpl.
  - split; [contradiction|]. intros (r & v & [] & _).
  - destruct (numeric_cell r col) as [v|] eqn:C.
    + destruct (pl_gt v 0) eqn:P; simpl; rewrite IH; split.
      * intros [<-|(r' & v' & H)]; [exists r, v; auto|].
        destruct H as (? & ? & ? & ?). exists r', v'. auto.
      * intros (r' & v' & [<-|Hin] & Hc & Hp & ->).
        -- left. congruence.
        -- right. exists r', v'. auto.
      * intros (r' & v' & H). destruct H as (? & ? & ? & ?).
        exists r', v'. auto.
      * intros (r' & v' & [<-|Hin] & Hc & Hp & ->).
        -- congruence.
        -- exists r', v'. auto.
    + rewrite IH; split.
      * intros (r' & v' & H). destruct H as (? & ? & ? & ?).
        exists r', v'. auto.
      * intros (r' & v' & [<-|Hin] & Hc & Hp & ->).
        -- congruence.
        -- exists r', v'. auto.
Qed.

Lemma length_positive_rows (col : string) (frame : list FoodRecord) :
  (List.length (positive_rows col frame) <= List.length frame)%nat.
Proof.
  induction frame as [|r frame IH]; simpl; [lia|].
  destruct (numeric_cell r col) as [v|]; [destruct (pl_gt v 0)|]; simpl; lia.
Qed.

(** A successful ranking is a prefix of the sorted positive rows of
    its first matching column. *)
Lemma get_top_foods_ok (table : DataFrame) (nutrient_name : string) (top_n : Z)
    (out : list RankedFood) (x : RankedFood) :
  get_top_foods_for_nutrient table nutrient_name top_n = Ok out ->
  In x out ->
  exists col r v,
    hd_error (matching_columns table nutrient_name) = Some col
    /\ In r (rows table) /\ numeric_cell r col = Some v
    /\ pl_gt v 0 = true /\ x = with_amount_per_ounce r v.
Proof.
  unfold get_top_foods_for_nutrient. intros H Hx.
  destruct (is_empty table); [injection H as <-; contradiction|].
  destruct (matching_columns table nutrient_name) as [|col cols];
    [injection H as <-; contradiction|].
  destruct (mem col _); [discriminate|].
  destruct (mem col _); [discriminate|].
  destruct (String.eqb col "amount_per_ounce"); [discriminate|].
  injection H as <-. apply in_head, in_sort_desc, in_positive_rows in Hx.
  destruct Hx as (r & v & Hx). exists col, r, v. split; [reflexivity|exact Hx].
Qed.

End RankingFacts.

(** C3, as stated, fails: the factor in the code is 28.35, applied as
    [amount * 28.35 / serving_size].  For 2 mg in a 100 g serving the
    code reports [2 * 28.35 / 100], not [2 * (28.3495 / 100)]. *)
Lemma per_ounce_factor_is_28_35 :
  get_top_foods_for_nutrient beef_table "iron" 20
  = Ok [mkRanked "Beef" 2 100 (2 * 28.35 / 100)]
  /\ (2 * 28.35 / 100 =? 2 * (28.3495 / 100)) = false
  /\ (2 * 28.35 / 100 <? 2 * (28.3495 / 100)) = false.
Proof.
  repeat split.
Qed.

(** C3, amended.  Every row of the ranking reports
    [amount_per_serving * 28.35 / serving_size]: the constant is 28.35
    grams per ounce, as the comment in the code says. *)
Theorem amount_per_ounce_formula (table : DataFrame) (nutrient_name : string)
    (top_n : Z) (out : list RankedFood) (x : RankedFood) :
  get_top_foods_for_nutrient table nutrient_name top_n = Ok out ->
  In x out ->
  amount_per_ounce x = amount_per_100g x * 28.35 / rf_serving_size x.
Proof.
  intros H Hx.
  destruct (get_top_foods_ok _ _ _ _ _ H Hx) as (col & r & v & _ & _ & _ & _ & ->).
  reflexivity.
Qed.

Lemma amount_per_ounce_formula_witness :
  amount_per_ounce (mkRanked "Beef" 2 100 (2 * 28.35 / 100))
  = amount_per_100g (mkRanked "Beef" 2 100 (2 * 28.35 / 100)) * 28.35
    / rf_serving_size (mkRanked "Beef" 2 100 (2 * 28.35 / 100)).
Proof.
  apply (amount_per_ounce_formula beef_table "iron" 20
           [mkRanked "Beef" 2 100 (2 * 28.35 / 100)]).
  - reflexivity.
  - simpl. auto.
Defined.

(** C4, as stated, fails: a record with serving size zero stays in the
    ranking, at the top, with an infinite amount per ounce. *)
Lemma zero_serving_size_is_ranked :
  get_top_foods_for_nutrient soup_table "iron" 20
  = Ok [mkRanked "Broth" 1 0 infinity; mkRanked "Beef" 2 100 (2 * 28.35 / 100)]
  /\ serving_size broth = 0
  /\ 1 * 28.35 / 0 = infinity.
Proof.
  repeat split.
Qed.

(** C4, amended.  The ranking filters on the selected nutrient column
    alone: every row it returns has an amount [> 0] there, and, when
    [top_n] does not cut the list, every record with such an amount is
    returned whatever its serving size, the division being carried out
    for each of them. *)
Theorem ranking_filters_on_amount_only (table : DataFrame)
    (nutrient_name : string) (top_n : Z) (out : list RankedFood) :
  get_top_foods_for_nutrient table nutrient_name top_n = Ok out ->
  (forall x, In x out -> pl_gt (amount_per_100g x) 0 = true)
  /\ (forall col r v,
        hd_error (matching_columns table nutrient_name) = Some col ->
        In r (rows table) -> numeric_cell r col = Some v ->
        pl_gt v 0 = true ->
        (Z.of_nat (List.length (rows table)) <= top_n)%Z ->
        In (mkRanked (description r) v (serving_size r)
              (v * 28.35 / serving_size r)) out).
Proof.
  intros H. split.
  - intros x Hx.
    destruct (get_top_foods_ok _ _ _ _ _ H Hx)
      as (col & r & v & _ & _ & _ & P & ->).
    exact P.
  - intros col r v Hcol Hr Hv Hp Hn. revert H.
    unfold get_top_foods_for_nutrient.
    rewrite (is_empty_in _ _ Hr).
    destruct (matching_columns table nutrient_name) as [|col' cols];
      [discriminate|].
    injection Hcol as ->.
    destruct (mem col _); [discriminate|].
    destruct (mem col _); [discriminate|].
    destruct (String.eqb col "amount_per_ounce"); [discriminate|].
    intros H; injection H as <-.
    rewrite head_all.
    + apply in_sort_desc, in_positive_rows. exists r, v. auto.
    + rewrite length_sort_desc.
      pose proof (length_positive_rows col (rows table)). lia.
Qed.

Lemma ranking_filters_on_amount_only_witness :
  (forall x,
     In x [mkRanked "Broth" 1 0 infinity;
           mkRanked "Beef" 2 100 (2 * 28.35 / 100)] ->
     pl_gt (amount_per_100g x) 0 = true)
  /\ In (mkRanked "Broth" 1 0 (1 * 28.35 / 0))
        [mkRanked "Broth" 1 0 infinity;
         mkRanked "Beef" 2 100 (2 * 28.35 / 100)].
Proof.
  destruct (ranking_filters_on_amount_only soup_table "iron" 20
              [mkRanked "Broth" 1 0 infinity;
               mkRanked "Beef" 2 100 (2 * 28.35 / 100)] eq_refl)
    as [Sound Complete].
  split; [exact Sound|].
  apply (Complete "iron_mg" broth 1); try reflexivity.
  - simpl. auto.
  - simpl. lia.
Defined.

(** ** _clean_data *)

Section CleaningFacts.

Lemma pl_unique_subset (frame out : list FoodRecord) :
  pl_unique frame out -> forall r, In r out -> In r frame.
Proof.
  induction 1 as [|frame out r Hr _ IH]; intros x; simpl; [tauto|].
  intros [<-|Hx]; [assumption|].
  apply IH, filter_In in Hx. tauto.
Qed.

Lemma pl_unique_nodup (frame out : list FoodRecord) :
  pl_unique frame out -> NoDup (map description out).
Proof.
  induction 1 as [|frame out r Hr Hu IH]; simpl; constructor; [|assumption].
  intros Hin. apply in_map_iff in Hin. destruct Hin as (x & Hd & Hx).
  apply (pl_unique_subset _ _ Hu), filter_In in Hx.
  destruct Hx as [_ Hx]. unfold other_description, same_description in Hx.
  rewrite Hd, String.eqb_refl in Hx. discriminate.
Qed.

Lemma pl_unique_covers (frame out : list FoodRecord) :
  pl_unique frame out ->
  forall r, In r frame ->
  exists r', In r' out /\ description r' = description r.
Proof.
  induction 1 as [|frame out r Hr _ IH]; intros x Hx; [contradiction|].
  destruct (same_description r x) eqn:E.
  - exists r. split; [simpl; auto|].
    unfold same_description in E. apply String.eqb_eq in E. congruence.
  - destruct (IH x) as (r' & Hr' & Hd).
    + apply filter_In. unfold other_description. rewrite E. auto.
    + exists r'. simpl; auto.
Qed.

Lemma filter_other_twice (r x : FoodRecord) (l : list FoodRecord) :
  description r = description x ->
  filter (other_description x) (filter (other_description r) l)
  = filter (other_description x) l.
Proof.
  intros E. induction l as [|y l IH]; simpl; [reflexivity|].
  unfold other_description, same_description in *.
  rewrite E in IH |- *.
  destruct (String.eqb (description y) (description x)) eqn:D;
    simpl; [exact IH|]. rewrite D. simpl. congruence.
Qed.

Lemma filter_other_comm (r x : FoodRecord) (l : list FoodRecord) :
  filter (other_description x) (filter (other_description r) l)
  = filter (other_description r) (filter (other_description x) l).
Proof.
  induction l as [|y l IH]; simpl; [reflexivity|].
  destruct (other_description r y) eqn:A, (other_description x y) eqn:B;
    simpl; rewrite ?A, ?B; congruence.
Qed.

(** Dropping one description from the frame drops it from every
    outcome. *)
Lemma pl_unique_filter (frame out : list FoodRecord) (x : FoodRecord) :
  pl_unique frame out ->
  pl_unique (filter (other_description x) frame)
            (filter (other_description x) out).
Proof.
  induction 1 as [|frame out r Hr _ IH]; simpl; [constructor|].
  destruct (other_description x r) eqn:E.
  - constructor.
    + apply filter_In. auto.
    + rewrite <- filter_other_comm. exact IH.
  - rewrite filter_other_twice in IH; [exact IH|].
    unfold other_description, same_description in E.
    apply negb_false_iff, String.eqb_eq in E. exact E.
Qed.

(** Keeping the first row of every description, in order, is one of
    the outcomes. *)
Lemma pl_unique_first (frame : list FoodRecord) :
  pl_unique frame (unique_first frame).
Proof.
  induction frame as [|r frame IH]; simpl; constructor; [simpl; auto|].
  simpl. unfold other_description at 1, same_description.
  rewrite String.eqb_refl. simpl.
  apply (pl_unique_filter _ _ r IH).
Qed.

Lemma description_fill_null (cols : list string) (r : FoodRecord) :
  description (fill_null cols r) = description r.
Proof.
  reflexivity.
Qed.

End CleaningFacts.

Lemma orchard_later_row :
  _clean_data orchard
    (mkDF (columns orchard)
       (map (fill_null (columns orchard)) [fuji; gala_second])).
Proof.
  apply clean_rows; [reflexivity|].
  apply unique_pick; [simpl; auto|].
  apply unique_pick; [simpl; auto|].
  apply unique_done.
Defined.

(** C5, as stated, fails: [unique] is called without [keep="first"]
    and without [maintain_order=True].  On the orchard table the
    cleaning may keep the second ["Gala"] record, and may put
    ["Fuji"] before ["Gala"]; neither is the first-occurrence,
    order-stable result. *)
Lemma cleaning_may_keep_a_later_row :
  _clean_data orchard
    (mkDF (columns orchard)
       (map (fill_null (columns orchard)) [fuji; gala_second]))
  /\ map fdc_id (map (fill_null (columns orchard)) [fuji; gala_second])
     = [12; 11]%Z
  /\ map fdc_id (map (fill_null (columns orchard)) (unique_first (rows orchard)))
     = [10; 12]%Z.
Proof.
  split; [exact orchard_later_row|split; reflexivity].
Qed.

(** C5, amended.  After [_clean_data] every description of the input
    occurs exactly once, each surviving record is a record of the input
    (nulls filled), and the first-occurrence, order-stable result is
    one of the outcomes; which occurrence survives and in which order
    is not fixed by the code. *)
Theorem clean_data_deduplicates (table cleaned : DataFrame) :
  _clean_data table cleaned ->
  NoDup (map description (rows cleaned))
  /\ (forall r', In r' (rows cleaned) ->
        exists r, In r (rows table)
                  /\ (r' = r \/ r' = fill_null (columns table) r))
  /\ (forall r, In r (rows table) ->
        exists r', In r' (rows cleaned) /\ description r' = description r)
  /\ _clean_data table
       (if is_empty table then table
        else mkDF (columns table)
               (map (fill_null (columns table)) (unique_first (rows table)))).
Proof.
  intros H. destruct H as [table E|table out E U].
  - unfold is_empty in *. rewrite E.
    destruct (rows table) eqn:R; [|discriminate].
    split; [constructor|]. split; [contradiction|]. split; [contradiction|].
    apply clean_empty. unfold is_empty. rewrite R. reflexivity.
  - rewrite E. cbn [rows]. split; [|split; [|split]].
    + rewrite map_map. 
      rewrite (map_ext _ description (description_fill_null (columns table))).
      exact (pl_unique_nodup _ _ U).
    + intros r' Hr'. apply in_map_iff in Hr'. destruct Hr' as (r & <- & Hr).
      exists r. split; [exact (pl_unique_subset _ _ U r Hr)|auto].
    + intros r Hr. destruct (pl_unique_covers _ _ U r Hr) as (r' & Hr' & Hd).
      exists (fill_null (columns table) r'). split; [|exact Hd].
      apply in_map. exact Hr'.
    + apply clean_rows; [exact E|apply pl_unique_first].
Qed.

Lemma clean_data_deduplicates_witness :
  NoDup (map description
           (map (fill_null (columns orchard)) [fuji; gala_second]))
  /\ _clean_data orchard
       (mkDF (columns orchard)
          (map (fill_null (columns orchard)) [gala_first; fuji])).
Proof.
  destruct (clean_data_deduplicates orchard _ orchard_later_row)
    as (Distinct & _ & _ & First).
  split; [exact Distinct|exact First].
Defined.

(** ** check_daily_requirements *)

Section RequirementFacts.

Lemma ltb_irrefl (x : float) : (x <? x) = false.
Proof.
  rewrite ltb_spec. unfold SFltb, SFcompare.
  destruct (Prim2SF x) as [s|s| |s m e]; try destruct s; try reflexivity;
    rewrite Z.compare_refl, Pos.compare_cont_refl; reflexivity.
Qed.

Lemma dict_get_set {V} (d : dict V) (k k' : string) (v : V) :
  dict_get (dict_set d k v) k'
  = if String.eqb k k' then Some v else dict_get d k'.
Proof.
  induction d as [|[a w] d IH]; simpl.
  - reflexivity.
  - destruct (String.eqb a k) eqn:A; simpl.
    + apply String.eqb_eq in A; subst a.
      destruct (String.eqb k k'); reflexivity.
    + destruct (String.eqb a k') eqn:B; [|exact IH].
      apply String.eqb_eq in B; subst a. rewrite String.eqb_sym, A.
      reflexivity.
Qed.

Lemma dict_get_in {V} (d : dict V) (k : string) (v : V) :
  dict_get d k = Some v -> In (k, v) d.
Proof.
  induction d as [|[a w] d IH]; simpl; [discriminate|].
  destruct (String.eqb a k) eqn:A; [|auto].
  apply String.eqb_eq in A. intros H; injection H as <-. subst. auto.
Qed.

Lemma fuzzy_match_in (ks : list string) (s : string) :
  fuzzy_match ks s = "" \/ In (fuzzy_match ks s) ks.
Proof.
  induction ks as [|k ks IH]; simpl; [auto|].
  destruct (_ && _); [auto|]. destruct IH; auto.
Qed.

Lemma match_nutrient_key_in (g : dict NutrientRequirement) (s : string) :
  match_nutrient_key g s <> "" -> In (match_nutrient_key g s) (keys g).
Proof.
  unfold match_nutrient_key. destruct (dict_mem g s) eqn:M.
  - intros _. apply dict_mem_keys, M.
  - destruct (fuzzy_match_in (keys g) s) as [->|H]; [congruence|auto].
Qed.

Lemma rda_value_cases (req : NutrientRequirement) (gender : string) :
  rda_value req gender = rda_male req
  \/ rda_value req gender = rda_female req
  \/ rda_value req gender = average_rda req.
Proof.
  unfold rda_value.
  destruct (String.eqb gender "male"), (rda_male req),
    (String.eqb gender "female"), (rda_female req); auto.
Qed.

(** Every threshold of the official table, and every average of two
    of them, is either absent or not zero. *)
Lemma official_thresholds (gender key : string) :
  In key (keys guidelines) ->
  exists req,
    get_requirement guidelines key gender = Some req
    /\ threshold_ok (rda req) = true
    /\ threshold_ok (req_upper_limit req) = true.
Proof.
  assert (C : forallb (fun kv => requirement_ok (snd kv)) guidelines = true)
    by (vm_compute; reflexivity).
  rewrite forallb_forall in C. intros Hk.
  apply dict_mem_keys in Hk. unfold dict_mem in Hk. unfold get_requirement.
  destruct (dict_get guidelines key) as [req|] eqn:G; [|discriminate].
  apply dict_get_in, C in G. simpl in G. unfold requirement_ok in G.
  rewrite !andb_true_iff in G. destruct G as [[[Hm Hf] Ha] Hu].
  eexists; split; [reflexivity|]. simpl. split; [|exact Hu].
  destruct (rda_value_cases req gender) as [->|[->| ->]]; assumption.
Qed.

Lemma classify_rule (rda upper_limit : option float) (amount : float) :
  threshold_ok rda = true -> threshold_ok upper_limit = true ->
  classify rda upper_limit amount = classification_rule rda upper_limit amount.
Proof.
  unfold classify, classification_rule, threshold_ok, truthy.
  destruct rda as [r|], upper_limit as [u|]; intros Hr Hu;
    rewrite ?Hr, ?Hu; simpl; reflexivity.
Qed.

Lemma check_rows_ok (gender : string) (all rest : list ProfileRow)
    (status : dict StatusEntry) :
  incl rest all ->
  (forall n e, dict_get status n = Some e -> entry_ok gender all n e) ->
  exists final,
    for_each (check_row gender) rest status = Ok final
    /\ (forall n e, dict_get final n = Some e -> entry_ok gender all n e)
    /\ (forall n, dict_mem status n = true -> dict_mem final n = true)
    /\ (forall row, In row rest ->
          match_nutrient_key guidelines (pr_nutrient row) <> "" ->
          dict_mem final (pr_nutrient row) = true).
Proof.
  revert status; induction rest as [|row rest IH]; intros status Hincl Hok.
  - exists status. simpl. split; [reflexivity|]. split; [exact Hok|].
    split; [auto|]. intros row [].
  - assert (Hrow : In row all) by (apply Hincl; simpl; auto).
    assert (Hrest : incl rest all) by (intros x Hx; apply Hincl; simpl; auto).
    simpl. unfold check_row at 1.
    destruct (String.eqb (match_nutrient_key guidelines (pr_nutrient row)) "")
      eqn:K.
    + simpl. destruct (IH status Hrest Hok) as (final & F & Fok & Fmem & Fcov).
      exists final. split; [exact F|]. split; [exact Fok|].
      split; [exact Fmem|].
      intros row' [<-|Hin] Hm; [|auto].
      apply String.eqb_eq in K. contradiction.
    + apply String.eqb_neq in K.
      destruct (official_thresholds gender _ (match_nutrient_key_in _ _ K))
        as (req & R & Tr & Tu).
      rewrite R. simpl.
      match goal with |- context [for_each _ rest ?s] => set (status' := s) end.
      destruct (IH status') as (final & F & Fok & Fmem & Fcov); [assumption| |].
      * intros n e. unfold status'. rewrite dict_get_set.
        destruct (String.eqb (pr_nutrient row) n) eqn:N; [|apply Hok].
        apply String.eqb_eq in N. intros H; injection H as <-. split.
        -- simpl. apply classify_rule; assumption.
        -- exists row, req. simpl. subst n. repeat split; auto.
      * exists final. split; [exact F|]. split; [exact Fok|]. split.
        -- intros n Hn. apply Fmem. unfold status', dict_mem in *.
           rewrite dict_get_set. destruct (String.eqb _ n); auto.
        -- intros row' [<-|Hin] Hm; [|auto].
           apply Fmem. unfold status', dict_mem.
           rewrite dict_get_set, String.eqb_refl. reflexivity.
Qed.

End RequirementFacts.

(** C6, as stated, fails in its last sentence: for magnesium the RDA
    of 400 mg (male) lies above the upper limit of 350 mg, so an amount
    equal to the RDA is above the maximum and an amount equal to the
    upper limit is below the minimum. *)
Lemma magnesium_boundaries_not_adequate :
  check_daily_requirements (mkProcessor "male" beef_table)
    (Profile [mkRow "magnesium_mg" 400 None])
  = Ok [("magnesium_mg",
         mkStatus 400 (Some 400) (Some 350) "mg" above_maximum)]
  /\ check_daily_requirements (mkProcessor "male" beef_table)
       (Profile [mkRow "magnesium_mg" 350 None])
     = Ok [("magnesium_mg",
            mkStatus 350 (Some 400) (Some 350) "mg" below_minimum)].
Proof.
  split; reflexivity.
Qed.

(** C6, amended.  [check_daily_requirements] gives every matched
    nutrient an entry, classified by the ordered rule: below the
    minimum iff an RDA is defined and the amount is under it, otherwise
    above the maximum iff an upper limit is defined and the amount is
    over it, otherwise adequate.  An amount equal to the RDA is never
    below the minimum, and an amount equal to the upper limit never
    above the maximum; each is adequate unless the other threshold
    applies. *)
Theorem check_daily_requirements_rule (self : Processor)
    (profile_rows : list ProfileRow) :
  exists status,
    check_daily_requirements self (Profile profile_rows) = Ok status
    /\ (forall row, In row profile_rows ->
          match_nutrient_key guidelines (pr_nutrient row) <> "" ->
          dict_mem status (pr_nutrient row) = true)
    /\ (forall nutrient e, dict_get status nutrient = Some e ->
          entry_ok (gender self) profile_rows nutrient e
          /\ st_status e
             = match st_min e with
               | Some r =>
                   if st_amount e <? r then below_minimum
                   else match st_max e with
                        | Some u =>
                            if u <? st_amount e then above_maximum else adequate
                        | None => adequate
                        end
               | None =>
                   match st_max e with
                   | Some u =>
                       if u <? st_amount e then above_maximum else adequate
                   | None => adequate
                   end
               end
          /\ (st_min e = Some (st_amount e) ->
              st_status e
              = match st_max e with
                | Some u => if u <? st_amount e then above_maximum else adequate
                | None => adequate
                end)
          /\ (st_max e = Some (st_amount e) ->
              st_status e
              = match st_min e with
                | Some r => if st_amount e <? r then below_minimum else adequate
                | None => adequate
                end)).
Proof.
  destruct (check_rows_ok (gender self) profile_rows profile_rows [])
    as (status & F & Fok & _ & Fcov).
  - intros x Hx; exact Hx.
  - simpl. discriminate.
  - exists status. split; [exact F|]. split; [exact Fcov|].
    intros nutrient e He. pose proof (Fok nutrient e He) as [Rule Origin].
    split; [exact (conj Rule Origin)|]. split; [exact Rule|].
    rewrite Rule. unfold classification_rule. split; intros ->.
    + rewrite ltb_irrefl. reflexivity.
    + rewrite ltb_irrefl. destruct (st_min e) as [r|]; [|reflexivity].
      destruct (st_amount e <? r); reflexivity.
Qed.

(** * Further properties *)

Import PyText GuidelineTable UsdaApi App.

(** ** Guidelines *)

Section GuidelineLookups.

Variable g : dict NutrientRequirement.

Lemma keys_have_values (k : string) :
  In k (keys g) -> exists req, dict_get g k = Some req.
Proof.
  intros H. apply dict_mem_keys in H. unfold dict_mem in H.
  destruct (dict_get g k) as [req|]; [eauto|discriminate].
Qed.

Lemma values_have_keys (k : string) (req : NutrientRequirement) :
  dict_get g k = Some req -> In k (keys g).
Proof.
  intros H. apply dict_mem_keys. unfold dict_mem. rewrite H. reflexivity.
Qed.

Lemma get_requirement_known (k gender : string) :
  In k (keys g) -> exists view, get_requirement g k gender = Some view.
Proof.
  intros H. destruct (keys_have_values k H) as [req R].
  unfold get_requirement. rewrite R. eauto.
Qed.

End GuidelineLookups.

(** X1. A key returned by [match_nutrient_key] is a key of the table:
    [get_requirement] never answers it with the empty result, whatever
    the gender. *)
Theorem matched_key_has_requirement (g : dict NutrientRequirement)
    (nutrient_column gender : string) :
  match_nutrient_key g nutrient_column <> "" ->
  In (match_nutrient_key g nutrient_column) (keys g)
  /\ exists view,
       get_requirement g (match_nutrient_key g nutrient_column) gender
       = Some view.
Proof.
  intros H. pose proof (match_nutrient_key_in g nutrient_column H) as K.
  split; [exact K|]. apply get_requirement_known. exact K.
Qed.

Lemma matched_key_has_requirement_witness :
  In (match_nutrient_key _load_official_guidelines "total_iron_mg")
     (keys _load_official_guidelines)
  /\ exists view,
       get_requirement _load_official_guidelines
         (match_nutrient_key _load_official_guidelines "total_iron_mg") "male"
       = Some view.
Proof.
  apply (matched_key_has_requirement _load_official_guidelines
           "total_iron_mg" "male").
  vm_compute. discriminate.
Defined.

(** X2. On the official table [match_nutrient_key] is idempotent:
    matching its own answer gives that answer again. *)
Theorem match_nutrient_key_idempotent (nutrient_column : string) :
  match_nutrient_key _load_official_guidelines
    (match_nutrient_key _load_official_guidelines nutrient_column)
  = match_nutrient_key _load_official_guidelines nutrient_column.
Proof.
  destruct (String.eqb
              (match_nutrient_key _load_official_guidelines nutrient_column)
              "") eqn:E.
  - apply String.eqb_eq in E. rewrite E. reflexivity.
  - apply String.eqb_neq in E.
    apply match_nutrient_key_in, dict_mem_keys in E.
    unfold match_nutrient_key at 1. rewrite E. reflexivity.
Qed.

(** X3. Whatever gender is asked for, the [rda] of a known key is
    absent only when neither sex has one; a defined RDA of the
    requested sex is returned unchanged, and the upper limit and the
    two sex-specific values are passed through. *)
Theorem get_requirement_rda_defined (g : dict NutrientRequirement)
    (key gender : string) (req : NutrientRequirement) :
  dict_get g key = Some req ->
  exists view,
    get_requirement g key gender = Some view
    /\ (rda view = None <-> rda_male req = None /\ rda_female req = None)
    /\ (forall m, gender = "male" -> rda_male req = Some m ->
                  rda view = Some m)
    /\ (forall f, gender = "female" -> rda_female req = Some f ->
                  rda view = Some f)
    /\ req_upper_limit view = upper_limit req
    /\ gender_specific_male view = rda_male req
    /\ gender_specific_female view = rda_female req.
Proof.
  intros H. unfold get_requirement. rewrite H. eexists. split; [reflexivity|].
  simpl. unfold rda_value, average_rda.
  split; [|split; [|split]].
  - destruct (String.eqb gender "male"), (String.eqb gender "female"),
      (rda_male req), (rda_female req); split;
      try discriminate; try tauto; intros [? ?]; discriminate.
  - intros m -> ->. reflexivity.
  - intros f -> ->. simpl. destruct (rda_male req); reflexivity.
  - auto.
Qed.

Lemma get_requirement_rda_defined_witness :
  exists view,
    get_requirement _load_official_guidelines "sugars_g" "female" = Some view
    /\ rda view = None
    /\ req_upper_limit view = Some 50.
Proof.
  destruct (get_requirement_rda_defined _load_official_guidelines "sugars_g"
              "female" (mkReq None None (Some 50) "g" "Added Sugars") eq_refl)
    as (view & E & Absent & _ & _ & Limit & _).
  exists view. split; [exact E|]. split; [|exact Limit].
  apply Absent. split; reflexivity.
Defined.

(** X4. [get_all_requirements] lists the keys of the table in the
    table's order, each with the answer [get_requirement] gives for it,
    and none of the answers is the empty result. *)
Theorem get_all_requirements_complete (g : dict NutrientRequirement)
    (gender : string) :
  keys (get_all_requirements g gender) = keys g
  /\ (forall k,
        dict_get (get_all_requirements g gender) k
        = match dict_get g k with
          | Some _ => Some (get_requirement g k gender)
          | None => None
          end)
  /\ (forall k answer,
        In (k, answer) (get_all_requirements g gender) ->
        exists view,
          answer = Some view /\ get_requirement g k gender = Some view).
Proof.
  unfold get_all_requirements. split; [|split].
  - unfold keys. rewrite map_map. reflexivity.
  - intros k. generalize (get_requirement g) as f. intros f.
    induction g as [|[k' req] rest IH]; simpl; [reflexivity|].
    destruct (String.eqb k' k) eqn:E; [|exact IH].
    apply String.eqb_eq in E. subst. reflexivity.
  - intros k answer H. apply in_map_iff in H.
    destruct H as ([k' req] & E & Hin). simpl in E. injection E as <- <-.
    destruct (get_requirement_known g k' gender) as [view V].
    + unfold keys. apply (in_map fst) in Hin. exact Hin.
    + exists view. rewrite V. split; reflexivity.
Qed.

(** ** _clean_data, continued *)

Section CleaningInvariants.

Lemma dict_get_tabulate {V} (f : string -> V) (cols : list string)
    (col : string) :
  In col cols -> dict_get (map (fun c => (c, f c)) cols) col = Some (f col).
Proof.
  induction cols as [|c cols IH]; simpl; [contradiction|].
  destruct (String.eqb c col) eqn:E.
  - apply String.eqb_eq in E. subst. reflexivity.
  - apply String.eqb_neq in E. intros [H|H]; [contradiction|auto].
Qed.

Lemma amount_of_fill_null (cols : list string) (r : FoodRecord) (col : string) :
  In col (nutrient_columns cols) ->
  amount_of (fill_null cols r) col
  = Some match amount_of r col with Some x => x | None => 0 end.
Proof.
  intros H. unfold amount_of at 1, fill_null. simpl.
  rewrite (dict_get_tabulate
             (fun c => Some match amount_of r c with
                            | Some x => x
                            | None => 0
                            end) _ _ H).
  reflexivity.
Qed.

Lemma filter_all {A} (p : A -> bool) (l : list A) :
  (forall x, In x l -> p x = true) -> filter p l = l.
Proof.
  induction l as [|x l IH]; simpl; intros H; [reflexivity|].
  rewrite (H x) by auto. f_equal. apply IH. auto.
Qed.

Lemma nodup_descriptions_filter (p : FoodRecord -> bool)
    (frame : list FoodRecord) :
  NoDup (map description frame) -> NoDup (map description (filter p frame)).
Proof.
  induction frame as [|r frame IH]; simpl; intros H; [constructor|].
  inversion H as [|? ? Hnot Hrest]; subst.
  destruct (p r); simpl; [|auto]. constructor; [|auto].
  intros Hin. apply Hnot. apply in_map_iff in Hin.
  destruct Hin as (x & Hd & Hx). apply filter_In in Hx.
  apply in_map_iff. exists x. tauto.
Qed.

(** With distinct descriptions, dropping the group of a record drops
    that record and nothing else. *)
Lemma drop_group_of_one (frame : list FoodRecord) (r : FoodRecord) :
  NoDup (map description frame) -> In r frame ->
  Permutation frame (r :: filter (other_description r) frame).
Proof.
  induction frame as [|a frame IH]; simpl; intros H Hin; [contradiction|].
  inversion H as [|? ? Hnot Hrest]; subst.
  destruct Hin as [->|Hin].
  - unfold other_description at 1, same_description.
    rewrite String.eqb_refl. simpl. rewrite filter_all; [reflexivity|].
    intros x Hx. unfold other_description, same_description.
    apply negb_true_iff, String.eqb_neq. intros E. apply Hnot.
    rewrite <- E. apply in_map. exact Hx.
  - assert (D : other_description r a = true).
    { unfold other_description, same_description.
      apply negb_true_iff, String.eqb_neq. intros E. apply Hnot.
      rewrite E. apply in_map. exact Hin. }
    rewrite D. rewrite perm_swap. constructor. apply IH; assumption.
Qed.

Lemma pl_unique_permutation (frame out : list FoodRecord) :
  pl_unique frame out -> NoDup (map description frame) ->
  Permutation frame out.
Proof.
  induction 1 as [|frame out r Hr _ IH]; intros H; [constructor|].
  rewrite (drop_group_of_one frame r H Hr). constructor.
  apply IH. apply nodup_descriptions_filter. exact H.
Qed.

End CleaningInvariants.

(** X5. After [_clean_data] no nutrient cell is null: every record of
    the cleaned table is a record of the input with its five metadata
    fields unchanged, and each of its nutrient cells holds the input
    value, or zero where the input was null. *)
Theorem clean_data_fills_nulls (table cleaned : DataFrame) (r' : FoodRecord) :
  _clean_data table cleaned ->
  In r' (rows cleaned) ->
  exists r,
    In r (rows table)
    /\ fdc_id r' = fdc_id r /\ description r' = description r
    /\ data_type r' = data_type r /\ serving_size r' = serving_size r
    /\ serving_unit r' = serving_unit r
    /\ forall col, In col (get_available_nutrients cleaned) ->
         amount_of r' col
         = Some match amount_of r col with Some x => x | None => 0 end.
Proof.
  intros H Hin. destruct H as [table E|table out E U].
  - revert Hin E. unfold is_empty.
    destruct (rows table); [intros []|discriminate].
  - simpl in Hin. apply in_map_iff in Hin. destruct Hin as (r & <- & Hr).
    exists r. split; [exact (pl_unique_subset _ _ U r Hr)|].
    repeat (split; [reflexivity|]).
    intros col Hcol. apply amount_of_fill_null.
    unfold get_available_nutrients in Hcol.
    rewrite (is_empty_in (fill_null (columns table) r)
               (mkDF (columns table) (map (fill_null (columns table)) out)))
      in Hcol; [exact Hcol|].
    simpl. apply in_map. exact Hr.
Qed.

Lemma clean_data_fills_nulls_witness :
  amount_of (fill_null (columns orchard) gala_second) "iron_mg" = Some 0.
Proof.
  destruct (clean_data_fills_nulls orchard _
              (fill_null (columns orchard) gala_second) orchard_later_row)
    as (r & Hr & Hid & _ & _ & _ & _ & Hcells).
  - simpl. auto.
  - rewrite (Hcells "iron_mg") by (simpl; auto).
    destruct Hr as [<-|[<-|[<-|[]]]]; simpl in Hid;
      try discriminate; reflexivity.
Defined.

(** X6. On a table whose descriptions are all different, [_clean_data]
    drops no record: the cleaned rows are the input rows, nulls filled,
    in some order. *)
Theorem clean_data_keeps_distinct (table cleaned : DataFrame) :
  NoDup (map description (rows table)) ->
  _clean_data table cleaned ->
  Permutation (map (fill_null (columns table)) (rows table)) (rows cleaned)
  /\ List.length (rows cleaned) = List.length (rows table).
Proof.
  intros H C. destruct C as [table E|table out E U].
  - unfold is_empty in E. destruct (rows table); [|discriminate].
    split; [constructor|reflexivity].
  - pose proof (pl_unique_permutation _ _ U H) as P. simpl. split.
    + apply Permutation_map. exact P.
    + rewrite length_map. symmetry. apply Permutation_length. exact P.
Qed.

Lemma pie_table_cleaned : _clean_data pie_table pie_table_swapped.
Proof.
  apply clean_rows; [reflexivity|].
  apply unique_pick; [simpl; auto|].
  apply unique_pick; [simpl; auto|].
  apply unique_done.
Defined.

Lemma clean_data_keeps_distinct_witness :
  Permutation (map (fill_null (columns pie_table)) (rows pie_table))
              (rows pie_table_swapped)
  /\ List.length (rows pie_table_swapped) = List.length (rows pie_table).
Proof.
  apply (clean_data_keeps_distinct pie_table pie_table_swapped).
  - simpl. repeat constructor; simpl; intuition discriminate.
  - exact pie_table_cleaned.
Defined.

(** ** get_food_nutrients, continued *)

Section ResolverFacts.

Variable table : DataFrame.

Lemma in_melt (o : Observation) (matches : list FoodRecord)
    (cols : list string) :
  In o (melt matches cols) <->
  exists r col, In r matches /\ In col cols
                /\ o = mkObs (description r) col (amount_of r col).
Proof.
  unfold melt. rewrite in_flat_map. split.
  - intros (col & Hcol & Ho). apply in_map_iff in Ho.
    destruct Ho as (r & <- & Hr). exists r, col. auto.
  - intros (r & col & Hr & Hcol & ->). exists col. split; [exact Hcol|].
    apply (in_map (fun r => mkObs (description r) col (amount_of r col))).
    exact Hr.
Qed.

(** The rows of the answer: one for every matched record and every
    nutrient column in which that record has a positive amount. *)
Lemma in_get_food_nutrients (food_name : string) (o : Observation) :
  In o (get_food_nutrients table food_name) <->
  exists r col v,
    In r (food_matches table food_name)
    /\ In col (get_available_nutrients table)
    /\ amount_of r col = Some v /\ pl_gt v 0 = true
    /\ o = mkObs (description r) col (Some v).
Proof.
  unfold get_food_nutrients. destruct (is_empty table) eqn:E.
  - split; [contradiction|]. intros (r & col & v & _ & Hcol & _).
    unfold get_available_nutrients in Hcol. rewrite E in Hcol. contradiction.
  - destruct (food_matches table food_name) as [|m ms] eqn:M; cbn [nonempty].
    + split; [contradiction|]. intros (r & col & v & [] & _).
    + rewrite filter_In, in_melt. split.
      * intros ((r & col & Hr & Hcol & ->) & Hpos). simpl in Hpos.
        destruct (amount_of r col) as [v|] eqn:V; [|discriminate].
        exists r, col, v. auto.
      * intros (r & col & v & Hr & Hcol & V & Hpos & ->). split.
        -- exists r, col. rewrite V. auto.
        -- exact Hpos.
Qed.

Lemma food_matches_in (food_name : string) (r : FoodRecord) :
  In r (food_matches table food_name) ->
  In r (rows table)
  /\ (description r = food_name
      \/ contains (lower food_name) (lower (description r)) = true
      \/ contains (lower (strip (sub_parens food_name)))
                  (lower (description r)) = true).
Proof.
  unfold food_matches, exact_matches, partial_matches, str_contains_escaped.
  destruct (nonempty (filter _ (rows table))).
  - rewrite filter_In, String.eqb_eq. tauto.
  - cbv zeta.
    destruct (nonempty (filter _ (rows table))); rewrite filter_In; tauto.
Qed.

Lemma food_matches_exact (food_name : string) (r : FoodRecord) :
  In r (rows table) -> description r = food_name ->
  food_matches table food_name = exact_matches table food_name.
Proof.
  intros Hr Hd. unfold food_matches.
  assert (E : In r (exact_matches table food_name)).
  { apply filter_In. split; [exact Hr|]. apply String.eqb_eq, Hd. }
  rewrite (nonempty_in _ _ E). reflexivity.
Qed.

Lemma contains_empty (s : string) : contains "" s = true.
Proof.
  destruct s; reflexivity.
Qed.

End ResolverFacts.

(** X7. Every row [get_food_nutrients] returns comes from a record of
    the table whose description equals the name, contains it without
    regard to case, or contains its parenthesis-free form; it names a
    nutrient column, never a metadata column, and its amount is the
    record's amount there, which is [> 0]. *)
Theorem get_food_nutrients_sound (table : DataFrame) (food_name : string)
    (o : Observation) :
  In o (get_food_nutrients table food_name) ->
  exists r v,
    In r (rows table)
    /\ (description r = food_name
        \/ contains (lower food_name) (lower (description r)) = true
        \/ contains (lower (strip (sub_parens food_name)))
                    (lower (description r)) = true)
    /\ obs_description o = description r
    /\ In (obs_nutrient o) (columns table)
    /\ ~ In (obs_nutrient o) metadata_columns
    /\ obs_amount o = Some v
    /\ amount_of r (obs_nutrient o) = Some v
    /\ pl_gt v 0 = true.
Proof.
  intros H. apply in_get_food_nutrients in H.
  destruct H as (r & col & v & Hr & Hcol & V & Hpos & ->).
  apply food_matches_in in Hr. destruct Hr as [Hr Tier].
  exists r, v. simpl. repeat (split; [tauto|]).
  unfold get_available_nutrients, nutrient_columns in Hcol.
  destruct (is_empty table); [contradiction|].
  apply filter_In in Hcol. destruct Hcol as [Hcol Hmeta].
  split; [exact Hcol|]. split; [|auto].
  intros Hin. apply negb_true_iff in Hmeta. unfold mem in Hmeta.
  assert (existsb (String.eqb col) metadata_columns = true)
    by (apply existsb_exists; exists col; split;
        [exact Hin|apply String.eqb_refl]).
  congruence.
Qed.

Lemma get_food_nutrients_sound_witness :
  exists r v,
    In r (rows apple_table)
    /\ (description r = "APPLE"
        \/ contains (lower "APPLE") (lower (description r)) = true
        \/ contains (lower (strip (sub_parens "APPLE")))
                    (lower (description r)) = true)
    /\ "Apple, Raw" = description r
    /\ In "iron_fe_MG" (columns apple_table)
    /\ ~ In "iron_fe_MG" metadata_columns
    /\ Some 0.12%float = Some v
    /\ amount_of r "iron_fe_MG" = Some v
    /\ pl_gt v 0 = true.
Proof.
  apply (get_food_nutrients_sound apple_table "APPLE"
           (mkObs "Apple, Raw" "iron_fe_MG" (Some 0.12%float))).
  vm_compute. auto.
Defined.

(** X8. Asked for a description that is in the table, as the food
    page does, [get_food_nutrients] answers from the records with
    exactly that description: it returns their positive nutrient
    amounts and nothing else, whatever other descriptions contain the
    name. *)
Theorem get_food_nutrients_exact (table : DataFrame) (selected : FoodRecord)
    (o : Observation) :
  In selected (rows table) ->
  In o (get_food_nutrients table (description selected)) <->
  exists r col v,
    In r (rows table) /\ description r = description selected
    /\ In col (nutrient_columns (columns table))
    /\ amount_of r col = Some v /\ pl_gt v 0 = true
    /\ o = mkObs (description selected) col (Some v).
Proof.
  intros Hsel. rewrite in_get_food_nutrients.
  rewrite (food_matches_exact table _ selected Hsel eq_refl).
  unfold get_available_nutrients. rewrite (is_empty_in _ _ Hsel).
  unfold exact_matches. split.
  - intros (r & col & v & Hr & Hcol & V & Hpos & ->).
    apply filter_In in Hr. destruct Hr as [Hr Hd].
    apply String.eqb_eq in Hd. exists r, col, v. rewrite Hd. auto 10.
  - intros (r & col & v & Hr & Hd & Hcol & V & Hpos & ->).
    exists r, col, v. rewrite Hd. repeat split; auto.
    apply filter_In. split; [exact Hr|]. apply String.eqb_eq, Hd.
Qed.

Lemma get_food_nutrients_exact_witness :
  In (mkObs "Apple" "protein_G" (Some 0.3%float))
     (get_food_nutrients pie_table "Apple").
Proof.
  apply (get_food_nutrients_exact pie_table apple).
  - simpl. auto.
  - exists apple, "protein_G", 0.3%float. simpl. auto 10.
Defined.

(** X9. The empty name matches every food: when no description is
    empty, [get_food_nutrients] with [""] returns the positive nutrient
    amounts of every record of the table. *)
Theorem get_food_nutrients_empty_name (table : DataFrame) (o : Observation) :
  (forall r, In r (rows table) -> description r <> "") ->
  In o (get_food_nutrients table "") <->
  exists r col v,
    In r (rows table) /\ In col (get_available_nutrients table)
    /\ amount_of r col = Some v /\ pl_gt v 0 = true
    /\ o = mkObs (description r) col (Some v).
Proof.
  intros Hne. rewrite in_get_food_nutrients.
  assert (M : food_matches table "" = rows table).
  { unfold food_matches.
    assert (E : exact_matches table "" = []).
    { apply filter_none. intros r Hr. apply String.eqb_neq. auto. }
    rewrite E. cbn [nonempty]. cbv zeta.
    assert (P : partial_matches table (lower "") = rows table).
    { apply filter_all. intros r _. apply contains_empty. }
    rewrite P. destruct (nonempty (rows table)); [reflexivity|exact P]. }
  rewrite M. reflexivity.
Qed.

Lemma get_food_nutrients_empty_name_witness :
  In (mkObs "Apple Pie" "protein_G" (Some 2.4%float))
     (get_food_nutrients pie_table "").
Proof.
  apply (get_food_nutrients_empty_name pie_table).
  - intros r [<-|[<-|[]]]; discriminate.
  - exists apple_pie, "protein_G", 2.4%float. simpl. auto 10.
Defined.

(** ** get_top_foods_for_nutrient, continued *)

Import Aids.

Section FloatOrder.

Lemma is_nan_spec (x : float) : is_nan x = sf_is_nan (Prim2SF x).
Proof.
  unfold is_nan. rewrite FloatAxioms.eqb_spec. unfold SFeqb, SFcompare.
  destruct (Prim2SF x) as [s|s| |s m e]; try destruct s; try reflexivity;
    rewrite Z.compare_refl, Pos.compare_cont_refl; reflexivity.
Qed.

Ltac compare_cases :=
  change (PosDef.Pos.compare_cont Eq) with Pos.compare;
  repeat match goal with
         | |- context [Z.compare ?u ?v] =>
             destruct (Z.compare_spec u v); subst
         end;
  simpl; try congruence; try lia;
  repeat match goal with
         | |- context [Pos.compare ?u ?v] =>
             destruct (Pos.compare_spec u v); subst
         end;
  simpl; try congruence; try lia.

Lemma SFltb_not_trans (a b c : spec_float) :
  sf_is_nan a = false -> sf_is_nan b = false -> sf_is_nan c = false ->
  SFltb a b = false -> SFltb b c = false -> SFltb a c = false.
Proof.
  unfold SFltb, SFcompare.
  destruct a as [sa|sa| |sa ma ea], b as [sb|sb| |sb mb eb],
    c as [sc|sc| |sc mc ec]; simpl; try discriminate; intros _ _ _;
    try destruct sa; try destruct sb; try destruct sc; simpl;
    try congruence; compare_cases.
Qed.

Lemma SFltb_asym (a b : spec_float) :
  SFltb a b = true -> SFltb b a = false.
Proof.
  unfold SFltb, SFcompare.
  destruct a as [sa|sa| |sa ma ea], b as [sb|sb| |sb mb eb]; simpl;
    try discriminate; try reflexivity;
    try destruct sa; try destruct sb; simpl; try congruence; compare_cases.
Qed.

Lemma SFltb_nan (a b : spec_float) :
  SFltb a b = true -> sf_is_nan a = false /\ sf_is_nan b = false.
Proof.
  unfold SFltb, SFcompare.
  destruct a, b; simpl; try discriminate; auto.
Qed.

Lemma pl_gt_spec (x y : float) :
  pl_gt x y
  = (sf_is_nan (Prim2SF x) && negb (sf_is_nan (Prim2SF y)))
    || SFltb (Prim2SF y) (Prim2SF x).
Proof.
  unfold pl_gt. rewrite !is_nan_spec, ltb_spec. reflexivity.
Qed.

(** A value greater than another is not smaller than it. *)
Lemma pl_gt_asym (x y : float) : pl_gt x y = true -> pl_gt y x = false.
Proof.
  rewrite !pl_gt_spec. intros H. apply orb_true_iff in H.
  destruct H as [H|H].
  - apply andb_true_iff in H. destruct H as [Hx Hy].
    apply negb_true_iff in Hy. rewrite Hy. simpl.
    destruct (SFltb (Prim2SF x) (Prim2SF y)) eqn:L; [|reflexivity].
    apply SFltb_nan in L. destruct L as [L _]. congruence.
  - destruct (SFltb_nan _ _ H) as [Hy Hx]. rewrite Hx, Hy. simpl.
    apply SFltb_asym. exact H.
Qed.

(** "Not greater than" is transitive. *)
Lemma pl_gt_not_trans (x y z : float) :
  pl_gt y x = false -> pl_gt z y = false -> pl_gt z x = false.
Proof.
  rewrite !pl_gt_spec. intros Hyx Hzy.
  apply orb_false_iff in Hyx, Hzy.
  destruct Hyx as [Nyx Lyx], Hzy as [Nzy Lzy].
  destruct (sf_is_nan (Prim2SF x)) eqn:Nx.
  - rewrite andb_false_r. simpl.
    destruct (SFltb (Prim2SF x) (Prim2SF z)) eqn:L; [|reflexivity].
    apply SFltb_nan in L. destruct L as [L _]. congruence.
  - simpl in Nyx. rewrite andb_true_r in Nyx.
    rewrite Nyx in Nzy. simpl in Nzy. rewrite andb_true_r in Nzy.
    rewrite Nzy. simpl.
    apply (SFltb_not_trans _ (Prim2SF y)); assumption.
Qed.

End FloatOrder.

Section RankingOrder.

Lemma insert_desc_sorted (x : RankedFood) (l : list RankedFood) :
  StronglySorted ranked_before l ->
  StronglySorted ranked_before (insert_desc x l).
Proof.
  induction 1 as [|y l Hl IH Hy]; simpl.
  - repeat constructor.
  - destruct (pl_gt (amount_per_ounce y) (amount_per_ounce x)) eqn:G.
    + constructor; [exact IH|]. apply Forall_forall. intros z Hz.
      apply in_insert_desc in Hz. destruct Hz as [->|Hz].
      * apply pl_gt_asym. exact G.
      * rewrite Forall_forall in Hy. auto.
    + constructor; [constructor; assumption|].
      constructor; [exact G|]. apply Forall_forall. intros z Hz.
      rewrite Forall_forall in Hy. specialize (Hy z Hz).
      unfold ranked_before in *.
      apply (pl_gt_not_trans _ (amount_per_ounce y)); assumption.
Qed.

Lemma sort_desc_sorted (l : list RankedFood) :
  StronglySorted ranked_before (sort_desc l).
Proof.
  unfold sort_desc. induction l as [|x l IH]; simpl; [constructor|].
  apply insert_desc_sorted. exact IH.
Qed.

Lemma firstn_sorted {A} (R : A -> A -> Prop) (n : nat) (l : list A) :
  StronglySorted R l -> StronglySorted R (firstn n l).
Proof.
  intros H; revert n; induction H as [|x l Hl IH Hx]; intros [|n]; simpl;
    try constructor; auto.
  apply Forall_forall. intros z Hz. rewrite Forall_forall in Hx.
  apply Hx. apply (in_firstn n). exact Hz.
Qed.

Lemma head_nonneg {A} (n : Z) (l : list A) :
  (0 <= n)%Z -> head n l = firstn (Z.to_nat n) l.
Proof.
  intros H. unfold head.
  destruct (n <? 0)%Z eqn:E; [apply Z.ltb_lt in E; lia|reflexivity].
Qed.

(** The shape of a ranking that does not raise: nothing, or a cut of
    the sorted rows of the first matching column. *)
Lemma get_top_foods_shape (table : DataFrame) (nutrient_name : string)
    (top_n : Z) (out : list RankedFood) :
  get_top_foods_for_nutrient table nutrient_name top_n = Ok out ->
  exists sorted,
    StronglySorted ranked_before sorted
    /\ (forall n, get_top_foods_for_nutrient table nutrient_name n
                  = Ok (head n sorted)).
Proof.
  unfold get_top_foods_for_nutrient.
  destruct (is_empty table).
  - intros _. exists []. split; [constructor|].
    intros n. unfold head. destruct (n <? 0)%Z; simpl;
      rewrite ?firstn_nil; reflexivity.
  - destruct (matching_columns table nutrient_name) as [|col cols].
    + intros _. exists []. split; [constructor|].
      intros n. unfold head. destruct (n <? 0)%Z; simpl;
        rewrite ?firstn_nil; reflexivity.
    + destruct (mem col _); [discriminate|].
      destruct (mem col _); [discriminate|].
      destruct (String.eqb col "amount_per_ounce"); [discriminate|].
      intros _. eexists. split; [apply sort_desc_sorted|]. reflexivity.
Qed.

End RankingOrder.

(** X10. With [top_n >= 0] the ranking has at most [top_n] rows; with
    [top_n = 0] it is empty. *)
Theorem get_top_foods_at_most_top_n (table : DataFrame)
    (nutrient_name : string) (top_n : Z) (out : list RankedFood) :
  (0 <= top_n)%Z ->
  get_top_foods_for_nutrient table nutrient_name top_n = Ok out ->
  (Z.of_nat (List.length out) <= top_n)%Z.
Proof.
  intros Hn H. destruct (get_top_foods_shape _ _ _ _ H) as (sorted & _ & Shape).
  rewrite Shape in H. injection H as <-. rewrite head_nonneg by exact Hn.
  pose proof (firstn_le_length (Z.to_nat top_n) sorted). lia.
Qed.

Lemma get_top_foods_at_most_top_n_witness :
  (Z.of_nat (List.length [mkRanked "Broth" 1 0 infinity]) <= 1)%Z.
Proof.
  apply (get_top_foods_at_most_top_n soup_table "iron" 1).
  - lia.
  - reflexivity.
Defined.

(** X11. Asking for fewer foods gives the beginning of the longer
    ranking: for [0 <= n <= m] the ranking for [n] is the first [n]
    rows of the ranking for [m].  The ranking page relies on it when
    it first asks for 1000 rows and then for the number chosen. *)
Theorem get_top_foods_prefix (table : DataFrame) (nutrient_name : string)
    (n m : Z) (longer : list RankedFood) :
  (0 <= n <= m)%Z ->
  get_top_foods_for_nutrient table nutrient_name m = Ok longer ->
  get_top_foods_for_nutrient table nutrient_name n
  = Ok (firstn (Z.to_nat n) longer).
Proof.
  intros Hn H. destruct (get_top_foods_shape _ _ _ _ H) as (sorted & _ & Shape).
  rewrite Shape in H. injection H as <-. rewrite Shape.
  rewrite !head_nonneg by lia. rewrite firstn_firstn.
  f_equal. f_equal. lia.
Qed.

Lemma get_top_foods_prefix_witness :
  get_top_foods_for_nutrient soup_table "iron" 1
  = Ok (firstn (Z.to_nat 1)
          [mkRanked "Broth" 1 0 infinity;
           mkRanked "Beef" 2 100 (2 * 28.35 / 100)]).
Proof.
  apply (get_top_foods_prefix soup_table "iron" 1 1000).
  - lia.
  - reflexivity.
Defined.

(** X12. The ranking is in descending order of [amount_per_ounce]: no
    row has a greater amount per ounce than a row before it (a NaN
    counting as greater than every number, as polars orders them). *)
Theorem get_top_foods_descending (table : DataFrame) (nutrient_name : string)
    (top_n : Z) (out : list RankedFood) :
  get_top_foods_for_nutrient table nutrient_name top_n = Ok out ->
  StronglySorted ranked_before out.
Proof.
  intros H. destruct (get_top_foods_shape _ _ _ _ H) as (sorted & S & Shape).
  rewrite Shape in H. injection H as <-.
  unfold head. destruct (top_n <? 0)%Z; apply firstn_sorted; exact S.
Qed.

Lemma get_top_foods_descending_witness :
  StronglySorted ranked_before
    [mkRanked "Broth" 1 0 infinity; mkRanked "Beef" 2 100 (2 * 28.35 / 100)].
Proof.
  apply (get_top_foods_descending soup_table "iron" 20). reflexivity.
Defined.

(** ** get_nutrient_profile, continued *)

Section LoopFacts.

Context {A S : Type}.
Variable body : S -> A -> result S.

Lemma for_each_app (l1 l2 : list A) (s : S) :
  for_each body (l1 ++ l2) s
  = (s' <- for_each body l1 s ;; for_each body l2 s').
Proof.
  revert s; induction l1 as [|a l1 IH]; intros s; simpl; [reflexivity|].
  destruct (body s a) as [s'| |]; simpl; auto.
Qed.

(** A property kept by every step that returns is kept by the loop. *)
Lemma for_each_invariant (P : S -> Prop) (l : list A) :
  (forall s a s', In a l -> P s -> body s a = Ok s' -> P s') ->
  forall s s', P s -> for_each body l s = Ok s' -> P s'.
Proof.
  induction l as [|a l IH]; simpl; intros Step s s' Hs H.
  - injection H as <-. exact Hs.
  - destruct (body s a) as [s1| |] eqn:B; simpl in H; try discriminate.
    apply (IH (fun s a s' Ha => Step s a s' (or_intror Ha)) s1 s');
      [|exact H].
    apply (Step s a s1); auto.
Qed.

End LoopFacts.

Section TotalsFacts.

Lemma keys_dict_set {V} (d : dict V) (k : string) (v : V) :
  keys (dict_set d k v) = if dict_mem d k then keys d else keys d ++ [k].
Proof.
  unfold keys, dict_mem. induction d as [|[a w] d IH]; simpl; [reflexivity|].
  destruct (String.eqb a k) eqn:E; simpl.
  - reflexivity.
  - rewrite IH. destruct (dict_get d k); reflexivity.
Qed.

Lemma nodup_keys_dict_set {V} (d : dict V) (k : string) (v : V) :
  NoDup (keys d) -> NoDup (keys (dict_set d k v)).
Proof.
  intros H. rewrite keys_dict_set. destruct (dict_mem d k) eqn:M; [exact H|].
  apply NoDup_app; [exact H|repeat constructor; simpl; tauto|].
  intros x Hx [<-|[]]. apply dict_mem_keys in Hx. congruence.
Qed.

Lemma in_keys_dict_set {V} (d : dict V) (k k' : string) (v : V) :
  In k' (keys (dict_set d k v)) -> k' = k \/ In k' (keys d).
Proof.
  rewrite keys_dict_set. destruct (dict_mem d k); [auto|].
  intros H. apply in_app_or in H. destruct H as [H|[<-|[]]]; auto.
Qed.

Lemma dict_get_nodup {V} (d : dict V) (k : string) (v : V) :
  NoDup (keys d) -> In (k, v) d -> dict_get d k = Some v.
Proof.
  unfold keys. induction d as [|[a w] d IH]; simpl; intros H Hin;
    [contradiction|].
  inversion H as [|? ? Hnot Hrest]; subst.
  destruct Hin as [E|Hin].
  - injection E as -> ->. rewrite String.eqb_refl. reflexivity.
  - destruct (String.eqb a k) eqn:E; [|auto].
    apply String.eqb_eq in E. subst a. exfalso. apply Hnot.
    apply (in_map fst) in Hin. exact Hin.
Qed.

Lemma add_scaled_ok (cols : list string) (totals : dict float)
    (nutrient : string) (x : float) :
  In nutrient cols -> totals_ok cols totals ->
  totals_ok cols (add_scaled totals nutrient x).
Proof.
  intros Hn [Hd Hk]. unfold add_scaled.
  destruct (dict_get totals nutrient); split;
    try (apply nodup_keys_dict_set; exact Hd);
    intros k Hin; apply in_keys_dict_set in Hin;
    destruct Hin as [->|Hin]; auto.
Qed.

Lemma add_item_keeps_ok (table : DataFrame) (cols : list string)
    (totals totals' : dict float) (item : FoodItem) :
  totals_ok cols totals ->
  add_item table cols totals item = Ok totals' ->
  totals_ok cols totals'.
Proof.
  intros Hok. unfold add_item.
  destruct (profile_matches (rows table) (food item)) as [ms| |]; simpl;
    try discriminate.
  destruct ms as [|food_data ms]; [intros H; injection H as <-; exact Hok|].
  apply for_each_invariant; [|exact Hok].
  intros s nutrient s' Hin Hs. unfold add_nutrient.
  destruct (amount_of food_data nutrient) as [v|];
    [|intros H; injection H as <-; exact Hs].
  destruct (py_div _ _) as [q| |]; simpl; try discriminate.
  intros H; injection H as <-. apply add_scaled_ok; assumption.
Qed.

Lemma totals_always_ok (table : DataFrame) (cols : list string)
    (items : list FoodItem) (totals : dict float) :
  for_each (add_item table cols) items [] = Ok totals ->
  totals_ok cols totals.
Proof.
  apply for_each_invariant.
  - intros s item s' _ Hs H. exact (add_item_keeps_ok _ _ _ _ _ Hs H).
  - split; [constructor|contradiction].
Qed.

Lemma profile_of_nutrients (gender : string) (totals : dict float)
    (profile_rows : list ProfileRow) :
  profile_of gender totals = Profile profile_rows ->
  totals <> []
  /\ profile_rows
     = map (fun entry =>
              mkRow (fst entry) (snd entry)
                    (daily_value gender totals (fst entry)))
           totals.
Proof.
  assert (M : forall l : dict float,
             map (fun '(nutrient, total) =>
                    mkRow nutrient total (daily_value gender totals nutrient)) l
             = map (fun entry =>
                      mkRow (fst entry) (snd entry)
                            (daily_value gender totals (fst entry))) l).
  { intros l. apply map_ext. intros [n t]. reflexivity. }
  unfold profile_of. rewrite M.
  destruct totals as [|e totals]; [discriminate|].
  intros H; injection H as <-. split; [discriminate|reflexivity].
Qed.

(** What it takes for [get_nutrient_profile] to return rows. *)
Lemma get_nutrient_profile_rows (self : Processor) (items : list FoodItem)
    (profile_rows : list ProfileRow) :
  get_nutrient_profile self items = Ok (Profile profile_rows) ->
  exists totals,
    totals_ok (get_available_nutrients (df self)) totals
    /\ totals <> []
    /\ profile_rows
       = map (fun entry =>
                mkRow (fst entry) (snd entry)
                      (daily_value (gender self) totals (fst entry)))
             totals.
Proof.
  unfold get_nutrient_profile. destruct (is_empty (df self)); [discriminate|].
  destruct (for_each (add_item (df self) (get_available_nutrients (df self)))
              items []) as [totals| |] eqn:F; simpl; try discriminate.
  intros H; injection H as H. apply profile_of_nutrients in H.
  exists totals. split; [exact (totals_always_ok _ _ _ _ F)|exact H].
Qed.

End TotalsFacts.

Lemma profile_nutrients_rows_distinct (self : Processor)
    (food_items : list FoodItem) (profile_rows : list ProfileRow) :
  get_nutrient_profile self food_items = Ok (Profile profile_rows) ->
  NoDup (map pr_nutrient profile_rows).
Proof.
  intros H. apply get_nutrient_profile_rows in H.
  destruct H as (totals & [Hd _] & _ & ->).
  rewrite map_map. exact Hd.
Qed.

(** X13. A profile that has rows names every nutrient once, and only
    nutrient columns of the table; so the row found by
    [index(nutrient)] is the row of that nutrient. *)
Theorem profile_nutrients_distinct (self : Processor)
    (food_items : list FoodItem) (profile_rows : list ProfileRow) :
  get_nutrient_profile self food_items = Ok (Profile profile_rows) ->
  profile_rows <> []
  /\ NoDup (map pr_nutrient profile_rows)
  /\ forall row, In row profile_rows ->
       In (pr_nutrient row) (get_available_nutrients (df self)).
Proof.
  intros H. apply get_nutrient_profile_rows in H.
  destruct H as (totals & [Hd Hk] & Hne & ->).
  assert (K : map pr_nutrient
                (map (fun entry =>
                        mkRow (fst entry) (snd entry)
                              (daily_value (gender self) totals (fst entry)))
                     totals) = keys totals).
  { unfold keys. rewrite map_map. reflexivity. }
  split; [|split].
  - destruct totals; [contradiction|discriminate].
  - rewrite K. exact Hd.
  - intros row Hrow. apply Hk. rewrite <- K. apply in_map. exact Hrow.
Qed.

Lemma profile_nutrients_distinct_witness :
  [mkRow "iron_mg" 2 (Some (2 / 18 * 100))] <> []
  /\ NoDup (map pr_nutrient [mkRow "iron_mg" 2 (Some (2 / 18 * 100))])
  /\ forall row, In row [mkRow "iron_mg" 2 (Some (2 / 18 * 100))] ->
       In (pr_nutrient row) (get_available_nutrients soup_table).
Proof.
  apply (profile_nutrients_distinct (mkProcessor "female" soup_table)
           [mkItem "beef" (-50); mkItem "rice" 80; mkItem "beef" 150]).
  reflexivity.
Defined.

(** X14. An item whose name matches no description can be left out of
    the list, wherever it stands: the profile, or the exception, is
    the same. *)
Theorem unmatched_item_changes_nothing (self : Processor)
    (before after : list FoodItem) (item : FoodItem) :
  profile_matches (rows (df self)) (food item) = Ok [] ->
  get_nutrient_profile self (before ++ item :: after)
  = get_nutrient_profile self (before ++ after).
Proof.
  intros H. unfold get_nutrient_profile.
  destruct (is_empty (df self)); [reflexivity|].
  rewrite !for_each_app. f_equal.
  destruct (for_each (add_item (df self) (get_available_nutrients (df self)))
              before []) as [totals| |]; simpl; try reflexivity.
  unfold add_item at 1. rewrite H. reflexivity.
Qed.

Lemma unmatched_item_changes_nothing_witness :
  get_nutrient_profile (mkProcessor "female" soup_table)
    ([mkItem "beef" (-50)] ++ mkItem "rice" 80 :: [mkItem "beef" 150])
  = get_nutrient_profile (mkProcessor "female" soup_table)
      ([mkItem "beef" (-50)] ++ [mkItem "beef" 150]).
Proof.
  apply (unmatched_item_changes_nothing (mkProcessor "female" soup_table)).
  reflexivity.
Defined.

(** X15. When the table is empty, or no item matches a description,
    [get_nutrient_profile] returns the frame without columns, and
    [check_daily_requirements] raises on it instead of returning an
    empty status: the frame has no [nutrient] column to read. *)
Theorem empty_profile_cannot_be_checked (self : Processor)
    (food_items : list FoodItem) :
  is_empty (df self) = true
  \/ (forall item, In item food_items ->
        profile_matches (rows (df self)) (food item) = Ok []) ->
  get_nutrient_profile self food_items = Ok NoColumns
  /\ (profile <- get_nutrient_profile self food_items ;;
      check_daily_requirements self profile)
     = Raise ColumnNotFoundError.
Proof.
  intros H.
  assert (P : get_nutrient_profile self food_items = Ok NoColumns).
  { unfold get_nutrient_profile.
    destruct (is_empty (df self)); [reflexivity|].
    destruct H as [H|H]; [discriminate|].
    assert (F : for_each (add_item (df self)
                            (get_available_nutrients (df self)))
                  food_items [] = Ok []).
    { induction food_items as [|item items IH]; simpl; [reflexivity|].
      unfold add_item at 1. rewrite (H item) by (simpl; auto). simpl.
      apply IH. intros i Hi. apply H. simpl. auto. }
    rewrite F. reflexivity. }
  split; [exact P|]. rewrite P. reflexivity.
Qed.

Lemma empty_profile_cannot_be_checked_witness :
  get_nutrient_profile (mkProcessor "male" beef_table)
    [mkItem "rice" 80; mkItem "tofu" 120] = Ok NoColumns
  /\ (profile <- get_nutrient_profile (mkProcessor "male" beef_table)
                   [mkItem "rice" 80; mkItem "tofu" 120] ;;
      check_daily_requirements (mkProcessor "male" beef_table) profile)
     = Raise ColumnNotFoundError.
Proof.
  apply (empty_profile_cannot_be_checked (mkProcessor "male" beef_table)).
  right. intros item [<-|[<-|[]]]; reflexivity.
Defined.

(** ** check_daily_requirements, continued *)

Section StatusFacts.

Variable gender : string.

Lemma check_row_entry (status : dict StatusEntry) (row : ProfileRow) :
  check_row gender status row
  = Ok match status_entry gender row with
       | Some e => dict_set status (pr_nutrient row) e
       | None => status
       end.
Proof.
  unfold check_row, status_entry.
  destruct (String.eqb (match_nutrient_key guidelines (pr_nutrient row)) "")
    eqn:K; [reflexivity|].
  apply String.eqb_neq in K.
  destruct (official_thresholds gender _ (match_nutrient_key_in _ _ K))
    as (req & R & _). rewrite R. reflexivity.
Qed.

(** The loop leaves alone the nutrients it does not meet. *)
Lemma check_rows_other (profile_rows : list ProfileRow)
    (status final : dict StatusEntry) (n : string) :
  for_each (check_row gender) profile_rows status = Ok final ->
  ~ In n (map pr_nutrient profile_rows) ->
  dict_get final n = dict_get status n.
Proof.
  revert status; induction profile_rows as [|row rest IH]; simpl;
    intros status H Hn.
  - injection H as <-. reflexivity.
  - rewrite check_row_entry in H. simpl in H.
    rewrite (IH _ H) by tauto.
    destruct (status_entry gender row); [|reflexivity].
    rewrite dict_get_set.
    destruct (String.eqb (pr_nutrient row) n) eqn:E; [|reflexivity].
    apply String.eqb_eq in E. tauto.
Qed.

(** With every nutrient on one row, the entry of a row is what the
    loop wrote for that row. *)
Lemma check_rows_lookup (profile_rows : list ProfileRow)
    (status final : dict StatusEntry) (row : ProfileRow) :
  NoDup (map pr_nutrient profile_rows) ->
  for_each (check_row gender) profile_rows status = Ok final ->
  In row profile_rows ->
  dict_get final (pr_nutrient row)
  = match status_entry gender row with
    | Some e => Some e
    | None => dict_get status (pr_nutrient row)
    end.
Proof.
  revert status; induction profile_rows as [|r rest IH]; simpl;
    intros status Hd H Hin; [contradiction|].
  inversion Hd as [|? ? Hnot Hrest]; subst.
  rewrite check_row_entry in H. simpl in H.
  destruct Hin as [->|Hin].
  - rewrite (check_rows_other _ _ _ _ H Hnot).
    destruct (status_entry gender row); [|reflexivity].
    rewrite dict_get_set, String.eqb_refl. reflexivity.
  - rewrite (IH _ Hrest H Hin).
    destruct (status_entry gender row) as [e|]; [reflexivity|].
    destruct (status_entry gender r); [|reflexivity].
    rewrite dict_get_set.
    destruct (String.eqb (pr_nutrient r) (pr_nutrient row)) eqn:E;
      [|reflexivity].
    apply String.eqb_eq in E. exfalso. apply Hnot. rewrite E.
    apply in_map. exact Hin.
Qed.

Lemma check_rows_total (profile_rows : list ProfileRow)
    (status : dict StatusEntry) :
  exists final, for_each (check_row gender) profile_rows status = Ok final.
Proof.
  revert status; induction profile_rows as [|row rest IH]; simpl;
    intros status; [eauto|].
  rewrite check_row_entry. simpl. apply IH.
Qed.

End StatusFacts.

(** X16. The status has an entry for a nutrient exactly when a row of
    the profile names it and it matches a guideline key; nutrients
    without a match are left out, without a trace. *)
Theorem status_lists_matched_nutrients (self : Processor)
    (profile_rows : list ProfileRow) (status : dict StatusEntry)
    (nutrient : string) :
  check_daily_requirements self (Profile profile_rows) = Ok status ->
  dict_mem status nutrient = true <->
  In nutrient (map pr_nutrient profile_rows)
  /\ match_nutrient_key guidelines nutrient <> "".
Proof.
  simpl. intros H.
  destruct (check_rows_ok (gender self) profile_rows profile_rows [])
    as (final & F & Fok & _ & Fcov).
  - intros x Hx; exact Hx.
  - simpl. discriminate.
  - rewrite F in H. injection H as <-. split.
    + intros M. unfold dict_mem in M.
      destruct (dict_get final nutrient) as [e|] eqn:G; [|discriminate].
      destruct (Fok nutrient e G) as [_ (row & req & Hrow & <- & _ & R & _)].
      split; [apply in_map; exact Hrow|].
      intros E. rewrite E in R. discriminate.
    + intros [Hin Hm]. apply in_map_iff in Hin.
      destruct Hin as (row & <- & Hrow). apply Fcov; assumption.
Qed.

Lemma status_lists_matched_nutrients_witness :
  dict_mem [("iron_mg", mkStatus 5 (Some 8) (Some 45) "mg" below_minimum)]
    "iron_mg" = true
  /\ dict_mem [("iron_mg", mkStatus 5 (Some 8) (Some 45) "mg" below_minimum)]
       "energy_kcal" = false.
Proof.
  pose proof (status_lists_matched_nutrients (mkProcessor "male" beef_table)
                [mkRow "energy_kcal" 250 None; mkRow "iron_mg" 5 None]
                [("iron_mg", mkStatus 5 (Some 8) (Some 45) "mg" below_minimum)])
    as Listed.
  split.
  - apply (Listed "iron_mg" eq_refl). split; [simpl; auto|discriminate].
  - destruct (dict_mem _ "energy_kcal") eqn:M; [|reflexivity].
    apply (Listed "energy_kcal" eq_refl) in M. destruct M as [_ M].
    exfalso. apply M. reflexivity.
Defined.

(** X17. A profile returned by [get_nutrient_profile] can always be
    checked, and the two agree: a row has a daily-value percentage
    exactly when its status entry has a minimum, the percentage being
    the row's total over that minimum times 100; the entry's amount is
    the row's total; a row without an entry has no percentage. *)
Theorem profile_and_status_agree (self : Processor)
    (food_items : list FoodItem) (profile_rows : list ProfileRow) :
  get_nutrient_profile self food_items = Ok (Profile profile_rows) ->
  exists status,
    check_daily_requirements self (Profile profile_rows) = Ok status
    /\ forall row, In row profile_rows ->
         match dict_get status (pr_nutrient row) with
         | Some e =>
             st_amount e = total_amount row
             /\ daily_value_pct row
                = match st_min e with
                  | Some r => Some (total_amount row / r * 100)
                  | None => None
                  end
         | None =>
             daily_value_pct row = None
             /\ match_nutrient_key guidelines (pr_nutrient row) = ""
         end.
Proof.
  intros H. pose proof (profile_nutrients_rows_distinct self food_items
                          profile_rows H) as Hd.
  apply get_nutrient_profile_rows in H.
  destruct H as (totals & [Hk _] & _ & E).
  destruct (check_rows_total (gender self) profile_rows []) as [status F].
  exists status. split; [exact F|]. intros row Hrow.
  rewrite (check_rows_lookup (gender self) _ _ _ row Hd F Hrow).
  subst profile_rows. apply in_map_iff in Hrow.
  destruct Hrow as ([n t] & <- & Hin). simpl.
  unfold status_entry, daily_value. simpl.
  destruct (String.eqb (match_nutrient_key guidelines n) "") eqn:K.
  - apply String.eqb_eq in K. auto.
  - apply String.eqb_neq in K.
    destruct (official_thresholds (gender self) _
                (match_nutrient_key_in _ _ K)) as (req & R & Tr & _).
    rewrite R. simpl. split; [reflexivity|].
    rewrite (dict_get_nodup totals n t Hk Hin).
    destruct (rda req) as [r|]; [|reflexivity].
    unfold threshold_ok in Tr. unfold truthy. rewrite Tr. reflexivity.
Qed.

Lemma profile_and_status_agree_witness :
  exists status,
    check_daily_requirements (mkProcessor "female" soup_table)
      (Profile [mkRow "iron_mg" 2 (Some (2 / 18 * 100))]) = Ok status
    /\ forall row, In row [mkRow "iron_mg" 2 (Some (2 / 18 * 100))] ->
         match dict_get status (pr_nutrient row) with
         | Some e =>
             st_amount e = total_amount row
             /\ daily_value_pct row
                = match st_min e with
                  | Some r => Some (total_amount row / r * 100)
                  | None => None
                  end
         | None =>
             daily_value_pct row = None
             /\ match_nutrient_key guidelines (pr_nutrient row) = ""
         end.
Proof.
  apply (profile_and_status_agree (mkProcessor "female" soup_table)
           [mkItem "beef" (-50); mkItem "rice" 80; mkItem "beef" 150]).
  reflexivity.
Defined.

(** ** Text *)

Local Open Scope string_scope.

Section TextFacts.

Lemma lower_ascii_idempotent (c : ascii) :
  lower_ascii (lower_ascii c) = lower_ascii c.
Proof.
  destruct c as [[] [] [] [] [] [] [] []]; reflexivity.
Qed.

Lemma lower_upper_ascii (c : ascii) :
  lower_ascii (upper_ascii c) = lower_ascii c.
Proof.
  destruct c as [[] [] [] [] [] [] [] []]; reflexivity.
Qed.

Lemma upper_ascii_underscore (c : ascii) :
  Ascii.eqb (upper_ascii c) "_" = Ascii.eqb c "_".
Proof.
  destruct c as [[] [] [] [] [] [] [] []]; reflexivity.
Qed.

Lemma lower_title_from (b : bool) (s : string) :
  lower (title_from b s) = lower s.
Proof.
  revert b; induction s as [|c s IH]; intros b; simpl; [reflexivity|].
  rewrite IH. destruct b;
    rewrite ?lower_ascii_idempotent, ?lower_upper_ascii; reflexivity.
Qed.

Lemma lower_append (a b : string) : lower (a ++ b) = lower a ++ lower b.
Proof.
  induction a as [|c a IH]; simpl; congruence.
Qed.

Lemma prefix_append (a b : string) : String.prefix a (a ++ b) = true.
Proof.
  induction a as [|c a IH]; simpl; [destruct b; reflexivity|].
  destruct (ascii_dec c c); [exact IH|congruence].
Qed.

Lemma contains_prefix (a b : string) :
  String.prefix a b = true -> contains a b = true.
Proof.
  intros H. destruct b; cbn [contains]; rewrite H; reflexivity.
Qed.

Lemma has_char_append (x : ascii) (a b : string) :
  has_char x (a ++ b) = has_char x a || has_char x b.
Proof.
  induction a as [|c a IH]; simpl; [reflexivity|].
  rewrite IH. apply orb_assoc.
Qed.

Lemma has_char_title_from (b : bool) (s : string) :
  has_char "_" (title_from b s) = has_char "_" s.
Proof.
  revert b; induction s as [|c s IH]; intros b; simpl; [reflexivity|].
  rewrite IH. destruct b;
    rewrite ?lower_ascii_underscore, ?upper_ascii_underscore; reflexivity.
Qed.

Lemma has_char_upper (s : string) : has_char "_" (upper s) = has_char "_" s.
Proof.
  induction s as [|c s IH]; simpl; [reflexivity|].
  rewrite IH, upper_ascii_underscore. reflexivity.
Qed.

Lemma split_on_nonempty (sep : ascii) (s : string) : split_on sep s <> [].
Proof.
  destruct s as [|c s]; simpl; [discriminate|].
  destruct (Ascii.eqb c sep); [discriminate|].
  destruct (split_on sep s); discriminate.
Qed.

(** No part of a split holds the separator. *)
Lemma split_on_parts (sep : ascii) (s : string) :
  Forall (fun part => has_char sep part = false) (split_on sep s).
Proof.
  induction s as [|c s IH]; simpl; [repeat constructor|].
  destruct (Ascii.eqb c sep) eqn:E; [constructor; [reflexivity|exact IH]|].
  destruct (split_on sep s) as [|part parts]; [repeat constructor; simpl|].
  - rewrite E. reflexivity.
  - inversion IH; subst. constructor; [simpl; rewrite E|]; assumption.
Qed.

Lemma split_on_one (sep : ascii) (s : string) :
  has_char sep s = false -> split_on sep s = [s].
Proof.
  induction s as [|c s IH]; simpl; [reflexivity|].
  destruct (Ascii.eqb c sep); simpl; [discriminate|].
  intros H. rewrite (IH H). reflexivity.
Qed.

Lemma split_on_two (sep : ascii) (s : string) :
  has_char sep s = true -> (2 <= List.length (split_on sep s))%nat.
Proof.
  induction s as [|c s IH]; simpl; [discriminate|].
  destruct (Ascii.eqb c sep); simpl.
  - intros _. pose proof (split_on_nonempty sep s).
    destruct (split_on sep s); [contradiction|simpl; lia].
  - intros H. specialize (IH H).
    destruct (split_on sep s); simpl in *; lia.
Qed.

(** Splitting at a separator splits the text on either side of it. *)
Lemma split_on_append (sep : ascii) (a b : string) :
  split_on sep (a ++ String sep b) = (split_on sep a ++ split_on sep b)%list.
Proof.
  induction a as [|c a IH]; simpl.
  - rewrite Ascii.eqb_refl. reflexivity.
  - destruct (Ascii.eqb c sep); [rewrite IH; reflexivity|].
    rewrite IH. pose proof (split_on_nonempty sep a).
    destruct (split_on sep a); [contradiction|reflexivity].
Qed.

(** Joining the parts of a split puts the new separator in place of
    the old one. *)
Lemma join_split_on (sep new : ascii) (s : string) :
  join (String new EmptyString) (split_on sep s) = replace_char sep new s.
Proof.
  induction s as [|c s IH]; simpl; [reflexivity|].
  pose proof (split_on_nonempty sep s) as N.
  destruct (Ascii.eqb c sep).
  - destruct (split_on sep s) as [|part parts]; [contradiction|].
    rewrite <- IH. reflexivity.
  - destruct (split_on sep s) as [|part parts]; [contradiction|].
    rewrite <- IH. destruct parts; reflexivity.
Qed.

Lemma has_char_join (x : ascii) (sep : string) (parts : list string) :
  has_char x sep = false ->
  Forall (fun part => has_char x part = false) parts ->
  has_char x (join sep parts) = false.
Proof.
  intros Hsep. induction 1 as [|part parts Hp Hparts IH]; [reflexivity|].
  destruct parts as [|next rest]; [exact Hp|].
  change (join sep (part :: next :: rest))
    with (part ++ sep ++ join sep (next :: rest)).
  rewrite !has_char_append, Hp, Hsep, IH. reflexivity.
Qed.

Lemma forall_removelast {A} (P : A -> Prop) (l : list A) :
  Forall P l -> Forall P (removelast l).
Proof.
  induction 1 as [|x l Hx Hl IH]; simpl; [constructor|].
  destruct l; [constructor|]. constructor; assumption.
Qed.

Lemma forall_last {A} (P : A -> Prop) (l : list A) (d : A) :
  Forall P l -> P d -> P (last l d).
Proof.
  induction 1 as [|x l Hx Hl IH]; simpl; [auto|].
  destruct l; auto.
Qed.

End TextFacts.

(** ** usda_api.py and the food search *)

(** X18. A food stored under the description [format_food_name]
    gives to an ASCII name is found again by that name: asked, in
    ASCII letters of any case, for the part before the first comma, or
    for the whole name when there is none, [get_food_nutrients] returns
    the positive
    nutrient amounts of the stored record, provided no description
    equals the query exactly. *)
Theorem stored_food_found_by_main_name (table : DataFrame) (r : FoodRecord)
    (name stored query col : string) (v : float) :
  format_food_name name = Some stored ->
  In r (rows table) ->
  description r = stored ->
  is_ascii query = true ->
  lower query = lower (main_name name) ->
  (forall r', In r' (rows table) -> description r' <> query) ->
  In col (get_available_nutrients table) ->
  amount_of r col = Some v ->
  pl_gt v 0 = true ->
  In (mkObs stored col (Some v)) (get_food_nutrients table query).
Proof.
  intros Hf Hr Hd _ Hq Hexact Hcol Hv Hpos.
  assert (E : exact_matches table query = []).
  { apply filter_none. intros r' Hr'. apply String.eqb_neq. auto. }
  assert (P : In r (partial_matches table (lower query))).
  { apply filter_In. split; [exact Hr|].
    unfold str_contains_escaped. rewrite Hd, Hq.
    unfold format_food_name in Hf.
    destruct (is_ascii name); [|discriminate]. injection Hf as <-.
    unfold main_name.
    destruct (contains "," name); cbv zeta.
    - rewrite lower_append. unfold title. rewrite lower_title_from.
      apply contains_prefix, prefix_append.
    - unfold title. rewrite lower_title_from.
      apply contains_prefix. rewrite <- (prefix_append (lower name) "").
      f_equal. clear. induction (lower name) as [|c s IH]; simpl; congruence. }
  apply in_get_food_nutrients. exists r, col, v.
  split; [|rewrite Hd; auto].
  unfold food_matches. rewrite E. cbn [nonempty]. cbv zeta.
  rewrite (nonempty_in _ _ P). exact P.
Qed.

Lemma stored_food_found_by_main_name_witness :
  format_food_name "Apples, raw, with skin" = Some "Apples (Raw, With Skin)"
  /\ In (mkObs "Apples (Raw, With Skin)" "protein_G" (Some 0.26%float))
        (get_food_nutrients stored_table "APPLES").
Proof.
  split; [reflexivity|].
  apply (stored_food_found_by_main_name stored_table stored_apples
           "Apples, raw, with skin" "Apples (Raw, With Skin)" "APPLES").
  - reflexivity.
  - simpl. auto.
  - reflexivity.
  - reflexivity.
  - reflexivity.
  - intros r' [<-|[]]. discriminate.
  - simpl. auto.
  - reflexivity.
  - reflexivity.
Defined.

(** ** app.py *)

(** X19. The display name [format_nutrient_name] builds never shows
    an underscore, whatever the column name. *)
Theorem format_nutrient_name_no_underscore (nutrient_name : string) :
  has_char "_" (format_nutrient_name nutrient_name) = false.
Proof.
  unfold format_nutrient_name. cbv zeta.
  pose proof (split_on_parts "_" nutrient_name) as Parts.
  destruct (List.length (split_on "_" nutrient_name) <? 2)%nat eqn:L.
  - unfold title. rewrite has_char_title_from.
    destruct (has_char "_" nutrient_name) eqn:H; [|reflexivity].
    apply split_on_two in H. apply Nat.ltb_lt in L. lia.
  - rewrite !has_char_append. unfold title.
    rewrite has_char_title_from, has_char_upper.
    rewrite (has_char_join "_" " " _ eq_refl (forall_removelast _ _ Parts)).
    rewrite (forall_last (fun part => has_char "_" part = false)
               _ EmptyString Parts eq_refl).
    reflexivity.
Qed.

(** X20. The display name of a column built by the loader: for a
    nutrient name and a unit without underscore, the column
    [name_unit] is shown as the normalized name with spaces for
    underscores, in title case, followed by the unit in upper case in
    parentheses. *)
Theorem loaded_column_display_name (name unit : string) :
  has_char "_" unit = false ->
  format_nutrient_name (nutrient_column name unit)
  = title (replace_char "_" " " (name_normalized name))
    ++ " (" ++ upper unit ++ ")".
Proof.
  intros H. unfold format_nutrient_name, nutrient_column. cbv zeta.
  change (name_normalized name ++ "_" ++ unit)
    with (name_normalized name ++ String "_" unit).
  rewrite split_on_append, (split_on_one "_" unit H).
  rewrite length_app. simpl List.length.
  pose proof (split_on_nonempty "_" (name_normalized name)) as N.
  destruct (List.length (split_on "_" (name_normalized name)) + 1 <? 2)%nat
    eqn:L.
  - apply Nat.ltb_lt in L.
    destruct (split_on "_" (name_normalized name)); [contradiction|].
    simpl in L. lia.
  - rewrite removelast_last, last_last, join_split_on. reflexivity.
Qed.

Lemma loaded_column_display_name_witness :
  format_nutrient_name (nutrient_column "Vitamin B-12, added" "UG")
  = "Vitamin B 12 Added (UG)".
Proof.
  rewrite (loaded_column_display_name "Vitamin B-12, added" "UG" eq_refl).
  reflexivity.
Defined.

Section SegmentFacts.

Lemma lower_first_segment (s : string) :
  lower (first_segment s) = first_segment (lower s).
Proof.
  induction s as [|c s IH]; simpl; [reflexivity|].
  rewrite lower_ascii_underscore.
  destruct (Ascii.eqb c "_"); simpl; congruence.
Qed.

Lemma prefix_first_segment (s : string) :
  String.prefix (first_segment s) s = true.
Proof.
  induction s as [|c s IH]; simpl; [reflexivity|].
  destruct (Ascii.eqb c "_"); simpl; [reflexivity|].
  destruct (ascii_dec c c); [exact IH|congruence].
Qed.

End SegmentFacts.

(** X21. The ranking page asks for the first segment of the selected
    nutrient column.  [get_top_foods_for_nutrient] then never leaves
    for want of a column: it works with the first column of the table
    whose name contains that segment, the selected column or one before
    it.  If that column is [description] or [serving_size] the call
    raises; if it is a nutrient column the call returns the ranking of
    that column, also when the selected column is another one. *)
Theorem ranking_column_for_selected (table : DataFrame) (selected : string)
    (top_n : Z) :
  In selected (get_available_nutrients table) ->
  exists used before after,
    columns table = (before ++ used :: after)%list
    /\ contains (lower (first_segment selected)) (lower used) = true
    /\ (forall col, In col before ->
          contains (lower (first_segment selected)) (lower col) = false)
    /\ (used = selected \/ In selected after)
    /\ (forall out,
          get_top_foods_for_nutrient table (first_segment selected) top_n
          = Ok out ->
          out = head top_n (sort_desc (positive_rows used (rows table))))
    /\ (mem used ["description"; "serving_size"] = true ->
        get_top_foods_for_nutrient table (first_segment selected) top_n
        = Raise DuplicateError)
    /\ (mem used metadata_columns = false ->
        used <> "amount_per_ounce" ->
        get_top_foods_for_nutrient table (first_segment selected) top_n
        = Ok (head top_n (sort_desc (positive_rows used (rows table))))).
Proof.
  intros H. unfold get_available_nutrients, nutrient_columns in H.
  destruct (is_empty table) eqn:Empty; [contradiction|].
  apply filter_In in H. destruct H as [H _].
  assert (M : In selected (matching_columns table (first_segment selected))).
  { apply filter_In. split; [exact H|].
    rewrite lower_first_segment.
    apply contains_prefix, prefix_first_segment. }
  destruct (matching_columns table (first_segment selected)) as [|used rest]
    eqn:E; [contradiction|].
  assert (Hd : hd_error (filter
                           (fun col =>
                              contains (lower (first_segment selected))
                                       (lower col)) (columns table))
               = Some used).
  { fold (matching_columns table (first_segment selected)). rewrite E.
    reflexivity. }
  destruct (hd_error_filter _ _ _ Hd) as (before & after & Cols & Hu & Hb).
  exists used, before, after.
  split; [exact Cols|]. split; [exact Hu|]. split; [exact Hb|]. split.
  { rewrite Cols in H. apply in_app_or in H.
    destruct H as [H|[H|H]]; [exfalso|left; exact H|right; exact H].
    apply Hb in H. rewrite lower_first_segment in H.
    rewrite (contains_prefix _ _ (prefix_first_segment (lower selected))) in H.
    discriminate. }
  unfold get_top_foods_for_nutrient. rewrite Empty, E.
  split; [|split].
  - intros out.
    destruct (mem used ["description"; "serving_size"]); [discriminate|].
    destruct (mem used ["data_type"; "serving_unit"]); [discriminate|].
    destruct (String.eqb used "amount_per_ounce"); [discriminate|].
    intros Out; injection Out as <-. reflexivity.
  - intros D. rewrite D. reflexivity.
  - intros Meta Other. unfold mem, metadata_columns in *. simpl in *.
    apply String.eqb_neq in Other. rewrite Other.
    repeat rewrite orb_false_iff in Meta.
    destruct Meta as (_ & D & T & S & U & _).
    rewrite D, T, S, U. reflexivity.
Qed.

Lemma ranking_column_for_selected_witness :
  exists used before after,
    columns vitamin_table = (before ++ used :: after)%list
    /\ (used = "vitamin_c_mg" \/ In "vitamin_c_mg" after)
    /\ forall out,
         get_top_foods_for_nutrient vitamin_table
           (first_segment "vitamin_c_mg") 1000 = Ok out ->
         out = head 1000 (sort_desc (positive_rows used (rows vitamin_table))).
Proof.
  destruct (ranking_column_for_selected vitamin_table "vitamin_c_mg" 1000)
    as (used & before & after & Cols & _ & _ & Place & Ranked & _).
  - simpl. auto.
  - exists used, before, after. auto.
Defined.

(** On the vitamin table the page's call for [vitamin_c_mg] ranks by
    [vitamin_a_ug], the first column holding ["vitamin"]. *)
Lemma ranking_uses_an_earlier_column :
  get_top_foods_for_nutrient vitamin_table (first_segment "vitamin_c_mg") 1000
  = Ok [mkRanked "Orange" 11 100 (11 * 28.35 / 100)].
Proof.
  reflexivity.
Qed.
